(** * DragonBridge: clipboard monitor and voice-command classifier

    A shallow embedding of [DragonBridge.py]: the command tables and
    [process_voice_commands], the settings loader [load_config], and the
    [ClipboardBridge] methods [start], [stop] and [_monitor_loop].

    Python strings are sequences of Unicode code points; dictionaries with
    string keys are finite maps; methods of the bridge thread the object
    state, a trace of the calls made to the collaborators, and a possible
    exception. *)

From Stdlib Require Import ZArith NArith QArith List String Ascii Lia.
From stdpp Require Import base option list gmap.

Local Open Scope N_scope.

(** ** Python strings *)

Module PyStr.

(** A [str] is a sequence of code points. *)
Definition codepoint := N.
Definition pystr := list codepoint.

(** ASCII literal of the source as a [str]. *)
Definition lit (s : string) : pystr :=
    List.map (fun a => N.of_nat (nat_of_ascii a)) (list_ascii_of_string s).

Definition is_ascii (s : pystr) : Prop := Forall (fun c => c < 128) s.

Definition is_asciib (s : pystr) : bool := forallb (fun c => c <? 128) s.

(** Case mapping and white space on the ASCII range, where every Python 3
      runtime agrees. *)
Definition ascii_lower_cp (c : N) : N :=
    if (65 <=? c) && (c <=? 90) then c + 32 else c.

Definition ascii_upper_cp (c : N) : N :=
    if (97 <=? c) && (c <=? 122) then c - 32 else c.

(** [str.isspace] below 128: TAB, LF, VT, FF, CR, FS, GS, RS, US, SPACE. *)
Definition ascii_isspace (c : N) : bool :=
    ((9 <=? c) && (c <=? 13)) || ((28 <=? c) && (c <=? 32)).

(** The Unicode database of the interpreter is not part of the program:
      [str.lower], [str.upper] and the white-space predicate used by
      [str.strip] are operations of the runtime, fixed only on ASCII text. *)
Class Runtime := {
    str_lower : pystr -> pystr;
    str_upper : pystr -> pystr;
    cp_isspace : N -> bool;
    str_lower_ascii : forall s, is_ascii s -> str_lower s = List.map ascii_lower_cp s;
    str_upper_ascii : forall s, is_ascii s -> str_upper s = List.map ascii_upper_cp s;
    cp_isspace_ascii : forall c, c < 128 -> cp_isspace c = ascii_isspace c
  }.

(** A runtime that knows ASCII only: other code points are left alone and
      are not white space. *)
#[refine] Instance ascii_runtime : Runtime := {
    str_lower := List.map ascii_lower_cp;
    str_upper := List.map ascii_upper_cp;
    cp_isspace := fun c => (c <? 128) && ascii_isspace c
  }.
Proof.
    - reflexivity.
    - reflexivity.
    - intros c Hc. apply N.ltb_lt in Hc. now rewrite Hc.
Defined.

Section Strip.
Context `{Runtime}.

Fixpoint lstrip (s : pystr) : pystr :=
      match s with
      | c :: s' => if cp_isspace c then lstrip s' else s
      | nil => nil
      end.

Definition rstrip (s : pystr) : pystr := rev (lstrip (rev s)).

(** [s.strip()] *)
Definition strip (s : pystr) : pystr := rstrip (lstrip s).
End Strip.

End PyStr.

Import PyStr.

(** ** Voice command processing *)

(** [VOICE_COMMANDS], in the order of the dictionary display. *)
Definition VOICE_COMMANDS_items : list (pystr * pystr) :=
  [ (lit "new line", [10]);
    (lit "new paragraph", [10; 10]);
    (lit "tab key", [9]);
    (lit "period", lit ".");
    (lit "comma", lit ",");
    (lit "exclamation point", lit "!");
    (lit "exclamation mark", lit "!");
    (lit "question mark", lit "?");
    (lit "colon", lit ":");
    (lit "semicolon", lit ";");
    (lit "open paren", lit "(");
    (lit "close paren", lit ")");
    (lit "open quote", [0x201c]);
    (lit "close quote", [0x201d]);
    (lit "open single quote", [0x2018]);
    (lit "close single quote", [0x2019]);
    (lit "hyphen", lit "-");
    (lit "dash", [0x2014]);
    (lit "ellipsis", [0x2026]) ].

(** [ACTION_COMMANDS], in the order of the dictionary display. *)
Definition ACTION_COMMANDS_items : list (pystr * pystr) :=
  [ (lit "select all", lit ".uno:SelectAll");
    (lit "undo that", lit ".uno:Undo");
    (lit "redo that", lit ".uno:Redo");
    (lit "bold that", lit ".uno:Bold");
    (lit "italicize that", lit ".uno:Italic");
    (lit "underline that", lit ".uno:Underline");
    (lit "cut that", lit ".uno:Cut");
    (lit "copy that", lit ".uno:Copy");
    (lit "paste that", lit ".uno:Paste");
    (lit "delete that", lit ".uno:SwBackspace");
    (lit "save document", lit ".uno:Save");
    (lit "scratch that", lit ".uno:Undo") ].

(** A dictionary display keeps the last value of a repeated key. *)
Definition dict_display {V} (items : list (pystr * V)) : gmap pystr V :=
  foldl (fun d kv => <[kv.1 := kv.2]> d) ∅ items.

Definition VOICE_COMMANDS : gmap pystr pystr := dict_display VOICE_COMMANDS_items.
Definition ACTION_COMMANDS : gmap pystr pystr := dict_display ACTION_COMMANDS_items.

(** The tag of the pair returned by [process_voice_commands]. *)
Inductive cmd_type := action | text | insert.

#[global] Instance cmd_type_eq_dec : EqDecision cmd_type.
Proof. solve_decision. Defined.

Section Classifier.
Context `{Runtime}.

Definition process_voice_commands (txt : pystr) : cmd_type * pystr :=
    let lower := str_lower (strip txt) in
    match ACTION_COMMANDS !! lower with
    | Some cmd => (action, cmd)
    | None =>
        match VOICE_COMMANDS !! lower with
        | Some repl => (text, repl)
        | None => (insert, txt)
        end
    end.
End Classifier.

(** ** Exceptions, traces and the method monad *)

(** The exceptions met here; all of them derive from [Exception]. *)
Inductive exn := TypeError | ValueError | OverflowError | OSError | RuntimeError.

Inductive result (A : Type) :=
| Ok (a : A)
| Raise (e : exn).
Arguments Ok {A} a.
Arguments Raise {A} e.

(** Calls that leave the program, in the order they are made. *)
Inductive event :=
| Spawn                          (* threading.Thread(target=_monitor_loop).start() *)
| Join                           (* thread.join(timeout=2) *)
| Notify (message : pystr)       (* self._notify(message) *)
| SetText (status : pystr)       (* sb.setText(status) *)
| Process (txt : pystr)          (* self._process_clipboard_text(txt) *)
| InsertString (txt : pystr)     (* doc_text.insertString(cursor, txt, _) *)
| ExecuteDispatch (cmd : pystr)  (* dispatch.executeDispatch(frame, cmd, "", 0, ()) *)
| PrintExc                       (* traceback.print_exc() *)
| Sleep (sec : Q).               (* time.sleep(sec) *)

(** A computation over a mutable object of type [S]: the new object, the
    calls made, and the value returned or the exception raised. *)
Definition M (S A : Type) : Type := S -> S * list event * result A.

Definition ret {S A} (a : A) : M S A := fun s => (s, [], Ok a).

Definition raise {S A} (e : exn) : M S A := fun s => (s, [], Raise e).

Definition bind {S A B} (k : A -> M S B) (m : M S A) : M S B :=
  fun s =>
    match m s with
    | (s1, t1, Ok a) => let '(s2, t2, r) := k a s1 in (s2, t1 ++ t2, r)
    | (s1, t1, Raise e) => (s1, t1, Raise e)
    end.

(** Sequencing is written [x ← m; k] and [m;; k]. *)
#[global] Instance M_ret {S} : MRet (M S) := @ret S.
#[global] Instance M_bind {S} : MBind (M S) := @bind S.

Definition get {S} : M S S := fun s => (s, [], Ok s).
Definition modify {S} (f : S -> S) : M S unit := fun s => (f s, [], Ok tt).
Definition emit {S} (e : event) : M S unit := fun s => (s, [e], Ok tt).
Definition lift {S A} (r : result A) : M S A := fun s => (s, [], r).

(** [try: body except Exception: handler]: what the body did before it
    raised stays done. *)
Definition try_except {S} (body : M S unit) (handler : M S unit) : M S unit :=
  fun s =>
    match body s with
    | (s1, t1, Ok tt) => (s1, t1, Ok tt)
    | (s1, t1, Raise _) => let '(s2, t2, r) := handler s1 in (s2, t1 ++ t2, r)
    end.

Definition state_of {S A} (x : S * list event * result A) : S := x.1.1.
Definition trace_of {S A} (x : S * list event * result A) : list event := x.1.2.
Definition outcome_of {S A} (x : S * list event * result A) : result A := x.2.

(** ** Configuration *)

(** A value decoded by [json.load]. An object lists its members as the
    document has them; a [float] is held as the rational it denotes (binary
    rounding and the non-finite values are outside the model). *)
#[local] Unset Elimination Schemes.
Inductive json :=
| JNull
| JBool (b : bool)
| JInt (z : Z)
| JFloat (q : Q)
| JStr (s : pystr)
| JArr (elems : list json)
| JObj (members : list (pystr * json)).
#[local] Set Elimination Schemes.

(** The settings dictionary, as seen through its string keys: the program
    reads and writes it under string keys only. *)
Abbreviation dict := (gmap pystr json).

(** What [load_config] finds on disk. *)
Inductive settings_file :=
| PathFails (e : exn)      (* get_config_path() raises, e.g. in os.makedirs *)
| Missing                  (* os.path.exists(path) is false *)
| OpenFails (e : exn)      (* open(path, "r") raises *)
| Undecodable (e : exn)    (* json.load(f) raises: not a JSON document *)
| Decoded (saved : json).  (* json.load(f) returns saved *)

(** The keys of a decoded object, each once, in the order of first
    appearance. *)
Fixpoint obj_keys (members : list (pystr * json)) : list pystr :=
  match members with
  | [] => []
  | (k, _) :: rest => k :: List.filter (fun k' => bool_decide (k' <> k)) (obj_keys rest)
  end.

(** The elements of [item] when [dict.update] takes it for a key/value
    pair: a list gives its elements, a string its characters, a dictionary
    its keys; anything else is not iterable. *)
Definition pair_elements (item : json) : result (list json) :=
  match item with
  | JArr l => Ok l
  | JStr s => Ok (List.map (fun c => JStr [c]) s)
  | JObj ms => Ok (List.map JStr (obj_keys ms))
  | _ => Raise TypeError
  end.

(** [d[k] = v]: lists and dictionaries cannot be keys; a key that is not a
    string leaves the string-keyed view as it was. *)
Definition dict_setitem (d : dict) (k v : json) : result dict :=
  match k with
  | JStr s => Ok (<[s := v]> d)
  | JArr _ | JObj _ => Raise TypeError
  | _ => Ok d
  end.

(** [d.update(items)] for an iterable of pairs: the pairs are stored one by
    one, so those before a bad element stay stored. *)
Fixpoint update_from_pairs (items : list json) : M dict unit :=
  match items with
  | [] => ret tt
  | item :: rest =>
      elems ← lift (pair_elements item);
      match elems with
      | [k; v] =>
          d ← get;
          d' ← lift (dict_setitem d k v);
          modify (fun _ => d');;
          update_from_pairs rest
      | _ => raise ValueError
      end
  end.

(** [d.update(other)] *)
Definition dict_update (other : json) : M dict unit :=
  match other with
  | JObj ms => modify (fun d => foldl (fun d kv => <[kv.1 := kv.2]> d) d ms)
  | JArr l => update_from_pairs l
  | JStr s => update_from_pairs (List.map (fun c => JStr [c]) s)
  | _ => raise TypeError
  end.

Definition poll_interval_ms : pystr := lit "poll_interval_ms".
Definition auto_space : pystr := lit "auto_space".
Definition show_notifications : pystr := lit "show_notifications".

Definition defaults : dict :=
  dict_display
    [ (poll_interval_ms, JInt 300);
      (auto_space, JBool true);
      (show_notifications, JBool true) ].

(** The body of the [try] in [load_config], acting on [defaults]. *)
Definition load_config_body (f : settings_file) : M dict unit :=
  match f with
  | PathFails e => raise e
  | Missing => ret tt
  | OpenFails e => raise e
  | Undecodable e => raise e
  | Decoded saved => dict_update saved
  end.

Definition load_config (f : settings_file) : result dict :=
  let '(d, _, r) :=
    (try_except (load_config_body f) (ret tt);; d ← get; ret d) defaults in
  r.

(** ** Clipboard bridge *)

(** The Windows clipboard as one call sequence of the bridge observes it. *)
Record clipboard := {
  cb_seq : result N;          (* GetClipboardSequenceNumber() *)
  cb_open : bool;             (* OpenClipboard(0) *)
  cb_handle : bool;           (* GetClipboardData(CF_UNICODETEXT) is not null *)
  cb_lock : bool;             (* GlobalLock(handle) is not null *)
  cb_wstring : result pystr   (* ctypes.wstring_at(ptr) *)
}.

Definition get_clipboard_text (cb : clipboard) : result pystr :=
  if cb_open cb then
    if cb_handle cb then
      if cb_lock cb then cb_wstring cb else Ok []
    else Ok []
  else Ok [].

Definition get_clipboard_seq (cb : clipboard) : result N := cb_seq cb.

(** How the UNO calls of one collaborator method end: they go through; the
    document, frame or status bar they need is absent; one of them raises
    before the call on the document is made; or that call is made and it,
    or a call after it in the same [try], raises. *)
Inductive uno :=
| UnoDone
| UnoAbsent
| UnoRaises (e : exn)
| UnoRaisesAfter (e : exn).

(** What the bridge meets during one method call or one loop iteration. *)
Record world := {
  w_clipboard : clipboard;
  w_uno : uno
}.

Inductive thread_obj := MonitorThread.

Record bridge := {
  running : bool;
  thread : option thread_obj;
  config : dict;
  last_seq : N;
  last_text : pystr
}.

Definition set_running (b : bool) (st : bridge) : bridge :=
  {| running := b; thread := thread st; config := config st;
     last_seq := last_seq st; last_text := last_text st |}.

Definition set_thread (t : option thread_obj) (st : bridge) : bridge :=
  {| running := running st; thread := t; config := config st;
     last_seq := last_seq st; last_text := last_text st |}.

Definition set_config (c : dict) (st : bridge) : bridge :=
  {| running := running st; thread := thread st; config := c;
     last_seq := last_seq st; last_text := last_text st |}.

Definition set_last_seq (n : N) (st : bridge) : bridge :=
  {| running := running st; thread := thread st; config := config st;
     last_seq := n; last_text := last_text st |}.

Definition set_last_text (t : pystr) (st : bridge) : bridge :=
  {| running := running st; thread := thread st; config := config st;
     last_seq := last_seq st; last_text := t |}.

(** The UNO calls of a method body, which end in [call] when they go
    through. *)
Definition uno_calls (u : uno) (call : event) : M bridge unit :=
  match u with
  | UnoDone => emit call
  | UnoAbsent => ret tt
  | UnoRaises e => raise e
  | UnoRaisesAfter e => emit call;; raise e
  end.

Definition _notify (w : world) (message : pystr) : M bridge unit :=
  emit (Notify message);;
  try_except
    (uno_calls (w_uno w) (SetText (lit "[Dragon Bridge] " ++ message)))
    (ret tt).

Definition _insert_text (w : world) (txt : pystr) : M bridge unit :=
  try_except (uno_calls (w_uno w) (InsertString txt)) (emit PrintExc).

Definition _dispatch_uno_command (w : world) (cmd_url : pystr) : M bridge unit :=
  try_except (uno_calls (w_uno w) (ExecuteDispatch cmd_url)) (emit PrintExc).

Definition started_message : pystr :=
  lit "Clipboard monitoring started - dictate into DragonPad and transfer.".

Definition stopped_message : pystr := lit "Clipboard monitoring stopped.".

(** [ClipboardBridge.__init__] *)
Definition init (f : settings_file) (cb : clipboard) : result bridge :=
  match load_config f with
  | Ok cfg =>
      match get_clipboard_seq cb with
      | Ok n =>
          match get_clipboard_text cb with
          | Ok t => Ok {| running := false; thread := None; config := cfg;
                          last_seq := n; last_text := t |}
          | Raise e => Raise e
          end
      | Raise e => Raise e
      end
  | Raise e => Raise e
  end.

Definition start (w : world) : M bridge unit :=
  st ← get;
  if running st then ret tt
  else
    modify (set_running true);;
    n ← lift (get_clipboard_seq (w_clipboard w));
    modify (set_last_seq n);;
    t ← lift (get_clipboard_text (w_clipboard w));
    modify (set_last_text t);;
    modify (set_thread (Some MonitorThread));;
    emit Spawn;;
    _notify w started_message.

Definition stop (w : world) : M bridge unit :=
  modify (set_running false);;
  st ← get;
  match thread st with
  | Some _ => emit Join;; modify (set_thread None)
  | None => ret tt
  end;;
  _notify w stopped_message.

Definition is_running (st : bridge) : bool := running st.

Section Monitor.
Context `{Runtime}.

Definition _process_clipboard_text (w : world) (txt : pystr) : M bridge unit :=
  emit (Process txt);;
  let '(cmd_type, result) := process_voice_commands txt in
  match cmd_type with
  | action => _dispatch_uno_command w result
  | text => _insert_text w result
  | insert => _insert_text w txt
  end.

(** An [int] converts to a [float] when it rounds to a finite double: when
    its magnitude is below [2^1024 - 2^970]. *)
Definition float_limit : Z := 2 ^ 1024 - 2 ^ 970.

Definition int_fits_float (z : Z) : bool := (Z.abs z <? float_limit)%Z.

(** [x / 1000.0]: an [int] is converted to a [float] first, which raises
    when it is too large. *)
Definition div_1000 (x : json) : result Q :=
  match x with
  | JInt z => if int_fits_float z then Ok (z # 1000) else Raise OverflowError
  | JBool b => Ok ((if b then 1%Z else 0%Z) # 1000)
  | JFloat q => Ok (q / 1000)%Q
  | _ => Raise TypeError
  end.

(** [self.config.get("poll_interval_ms", 300) / 1000.0] *)
Definition poll_sec (cfg : dict) : result Q :=
  div_1000 (default (JInt 300) (cfg !! poll_interval_ms)).

(** [time.sleep] holds the length as a 64-bit count of nanoseconds. *)
Definition sleep_in_range (sec : Q) : bool :=
  Qle_bool (- (2 ^ 63)) (sec * 1000000000) &&
  negb (Qle_bool (2 ^ 63) (sec * 1000000000)).

(** What [time.sleep(sec)] answers: a length that does not fit raises
    [OverflowError], a negative one [ValueError]. *)
Definition sleep_result (sec : Q) : result unit :=
  if sleep_in_range sec then
    if Qle_bool 0 sec then Ok tt else Raise ValueError
  else Raise OverflowError.

Definition time_sleep (sec : Q) : M bridge unit :=
  emit (Sleep sec);;
  lift (sleep_result sec).

(** The [try] block of the loop body. *)
Definition monitor_try (w : world) : M bridge unit :=
  current_seq ← lift (get_clipboard_seq (w_clipboard w));
  st ← get;
  if negb (current_seq =? last_seq st) then
    modify (set_last_seq current_seq);;
    current_text ← lift (get_clipboard_text (w_clipboard w));
    st ← get;
    if negb (bool_decide (current_text = [])) &&
       negb (bool_decide (current_text = last_text st))
    then
      modify (set_last_text current_text);;
      _process_clipboard_text w current_text
    else ret tt
  else ret tt.

(** One pass through the body of the [while]. *)
Definition monitor_iteration (sec : Q) (w : world) : M bridge unit :=
  try_except (monitor_try w) (emit PrintExc);;
  time_sleep sec.

(** How a run of the loop over finitely many iterations ends. *)
Inductive loop_end :=
| Returned    (* the while condition was false *)
| Polling.    (* still in the loop after the last iteration given *)

(** [while self.running: ...], one [world] for each iteration. *)
Fixpoint monitor_while (sec : Q) (ws : list world) : M bridge loop_end :=
  st ← get;
  if running st then
    match ws with
    | [] => ret Polling
    | w :: ws' => monitor_iteration sec w;; monitor_while sec ws'
    end
  else ret Returned.

Definition _monitor_loop (ws : list world) : M bridge loop_end :=
  st ← get;
  sec ← lift (poll_sec (config st));
  monitor_while sec ws.

End Monitor.

(** ** Notions used in the statements *)

(** One entry [(P, cmd)] of a table is classified as the action [cmd] as it
    stands, in upper case and between two spaces (on the ASCII runtime). *)
Definition insensitive_entry (kv : pystr * pystr) : bool :=
  let '(P, cmd) := kv in
  is_asciib P &&
  bool_decide (@process_voice_commands ascii_runtime P = (action, cmd)) &&
  bool_decide (@process_voice_commands ascii_runtime (List.map ascii_upper_cp P) = (action, cmd)) &&
  bool_decide (@process_voice_commands ascii_runtime (lit " " ++ P ++ lit " ") = (action, cmd)).

(** The events by which clipboard text reaches the document. *)
Definition is_dispatch (e : event) : bool :=
  match e with
  | Process _ | InsertString _ | ExecuteDispatch _ => true
  | _ => false
  end.

Definition dispatches (t : list event) : list event := List.filter is_dispatch t.




(** The calls a collaborator method makes for the UNO outcome [u]. *)
Definition uno_trace (u : uno) (call : event) (on_error : list event) : list event :=
  match u with
  | UnoDone => [call]
  | UnoAbsent => []
  | UnoRaises _ => on_error
  | UnoRaisesAfter _ => call :: on_error
  end.

(** Sample observations for concrete runs: a clipboard holding [s] under
    sequence number [n], and a bridge in the middle of monitoring. *)
Definition clip (n : N) (s : string) : clipboard :=
  {| cb_seq := Ok n; cb_open := true; cb_handle := true; cb_lock := true;
     cb_wstring := Ok (lit s) |}.

Definition idle_bridge : bridge :=
  {| running := true; thread := Some MonitorThread; config := defaults;
     last_seq := 7; last_text := lit "hello" |}.

Definition sample_world (n : N) (s : string) (u : uno) : world :=
  {| w_clipboard := clip n s; w_uno := u |}.

(** A clipboard that cannot be read at all. *)
Definition locked_world : world :=
  {| w_clipboard := {| cb_seq := Raise OSError; cb_open := true; cb_handle := true;
                       cb_lock := true; cb_wstring := Raise OSError |};
     w_uno := UnoDone |}.



Definition stopped_bridge : bridge :=
  {| running := false; thread := None; config := defaults;
     last_seq := 7; last_text := lit "hello" |}.


(** ** Clipboard access, call by call *)

(** The Windows calls of [get_clipboard_text]. *)
Inductive api_call :=
| OpenClipboard
| GetClipboardData
| GlobalLock
| WStringAt
| GlobalUnlock
| CloseClipboard.

#[global] Instance api_call_eq_dec : EqDecision api_call.
Proof. solve_decision. Defined.

(** [get_clipboard_text] with the calls it makes: the two [finally] blocks
    run whether or not [ctypes.wstring_at] raises. *)
Definition get_clipboard_text_calls (cb : clipboard) : list api_call * result pystr :=
  if cb_open cb then
    let '(calls, r) :=
      if cb_handle cb then
        if cb_lock cb then
          ([GetClipboardData; GlobalLock; WStringAt; GlobalUnlock], cb_wstring cb)
        else ([GetClipboardData; GlobalLock], Ok [])
      else ([GetClipboardData], Ok [])
    in (OpenClipboard :: calls ++ [CloseClipboard], r)
  else ([OpenClipboard], Ok []).

(** ** The global bridge and the toggle command *)

(** [get_bridge(ctx)] on the module variable [_bridge_instance]: the
    instance is built on first use, from the settings file and the
    clipboard of that moment. *)
Definition get_bridge (f : settings_file) (cb : clipboard) (g : option bridge) :
    option bridge * result bridge :=
  match g with
  | Some b => (g, Ok b)
  | None =>
      match init f cb with
      | Ok b => (Some b, Ok b)
      | Raise e => (None, Raise e)
      end
  end.

(** [ToggleBridge.trigger] *)
Definition ToggleBridge_trigger (f : settings_file) (cb : clipboard) (w : world) :
    M (option bridge) unit :=
  fun g =>
    match get_bridge f cb g with
    | (g', Raise e) => (g', [], Raise e)
    | (_, Ok b) =>
        let '(b', t, r) := (if is_running b then stop w b else start w b) in
        (Some b', t, r)
    end.

(** ** Saving settings and the settings dialog *)

(** How writing the settings file goes. *)
Inductive save_world :=
| SavePathFails (e : exn)   (* get_config_path() raises *)
| SaveOpenFails (e : exn)   (* open(path, "w") raises *)
| SaveDumpFails (e : exn)   (* json.dump raises while writing *)
| SaveDone.

(** The body of the [try] in [save_config], acting on the last dictionary
    handed to [json.dump]. *)
Definition save_config_body (sw : save_world) (cfg : dict) : M (option dict) unit :=
  match sw with
  | SavePathFails e => raise e
  | SaveOpenFails e => raise e
  | SaveDumpFails e => modify (fun _ => Some cfg);; raise e
  | SaveDone => modify (fun _ => Some cfg)
  end.

Definition save_config (sw : save_world) (cfg : dict) : M (option dict) unit :=
  try_except (save_config_body sw cfg) (ret tt).

(** What the settings dialog does once its model is set up. *)
Record dialog := {
  dlg_execute : result Z;            (* building the dialog, then dialog.execute() *)
  dlg_read : result (Q * Z * Z);     (* numPoll value, chkAutoSpace and chkNotify State *)
  dlg_dispose : result unit          (* dialog.dispose() *)
}.

(** [int(x)] on a float: truncation towards zero. *)
Definition py_int (x : Q) : Z := Z.quot (Qnum x) (Zpos (Qden x)).

(** The module state the dialog acts on. *)
Record office := {
  bridge_instance : option bridge;   (* _bridge_instance *)
  dumped : option dict               (* the last dictionary handed to json.dump *)
}.

Definition on_dumped {A : Type} (m : M (option dict) A) : M office A :=
  fun o =>
    let '(d, t, r) := m (dumped o) in
    ({| bridge_instance := bridge_instance o; dumped := d |}, t, r).

(** [bridge = get_bridge(ctx); bridge.config = config] *)
Definition assign_config (f : settings_file) (cb : clipboard) (cfg : dict) : M office unit :=
  fun o =>
    match get_bridge f cb (bridge_instance o) with
    | (g, Raise e) => ({| bridge_instance := g; dumped := dumped o |}, [], Raise e)
    | (_, Ok b) =>
        ({| bridge_instance := Some (set_config cfg b); dumped := dumped o |}, [], Ok tt)
    end.

(** [SettingsDialog._open_settings]; [f] is the settings file when the
    dialog opens, [f'] and [cb] are the file and the clipboard when the
    bridge is looked up. *)
Definition _open_settings (f : settings_file) (dlg : dialog) (sw : save_world)
    (f' : settings_file) (cb : clipboard) : M office unit :=
  cfg ← lift (load_config f);
  res ← lift (dlg_execute dlg);
  (if (res =? 1)%Z then
     vals ← lift (dlg_read dlg);
     let '(poll, auto, ntfy) := vals in
     let cfg1 := <[poll_interval_ms := JInt (py_int poll)]> cfg in
     let cfg2 := <[auto_space := JBool (auto =? 1)%Z]> cfg1 in
     let cfg3 := <[show_notifications := JBool (ntfy =? 1)%Z]> cfg2 in
     on_dumped (save_config sw cfg3);;
     assign_config f' cb cfg3
   else ret tt);;
  lift (dlg_dispose dlg).

(** [SettingsDialog.trigger] *)
Definition SettingsDialog_trigger (f : settings_file) (dlg : dialog) (sw : save_world)
    (f' : settings_file) (cb : clipboard) : M office unit :=
  try_except (_open_settings f dlg sw f' cb) (emit PrintExc).

(** ** Further notions used in the statements *)

(** A string made of white space only (the empty string included). *)
Definition is_blank `{Runtime} (s : pystr) : Prop :=
  Forall (fun c => cp_isspace c = true) s.

(** ASCII letters and the space: the characters the keys of the two tables
    are made of. *)
Definition letter_or_space (c : N) : bool :=
  (c =? 32) || ((65 <=? c) && (c <=? 90)) || ((97 <=? c) && (c <=? 122)).

Definition lower_or_space (c : N) : bool :=
  (c =? 32) || ((97 <=? c) && (c <=? 122)).

(** One entry [(P, repl)] of a table is classified as the text [repl] as it
    stands, in upper case and between two spaces (on the ASCII runtime). *)
Definition insensitive_text_entry (kv : pystr * pystr) : bool :=
  let '(P, repl) := kv in
  is_asciib P &&
  bool_decide (@process_voice_commands ascii_runtime P = (text, repl)) &&
  bool_decide (@process_voice_commands ascii_runtime (List.map ascii_upper_cp P) = (text, repl)) &&
  bool_decide (@process_voice_commands ascii_runtime (lit " " ++ P ++ lit " ") = (text, repl)).

(** Two classifications that agree: the same tag, and the same payload
    unless the text is passed through. *)
Definition same_command (r1 r2 : cmd_type * pystr) : Prop :=
  r1.1 = r2.1 /\ (r1.1 <> insert -> r1.2 = r2.2).

(** The document call [_process_clipboard_text] aims at for [txt]. *)
Definition document_call `{Runtime} (txt : pystr) : event :=
  match process_voice_commands txt with
  | (action, cmd) => ExecuteDispatch cmd
  | (text, repl) => InsertString repl
  | (insert, _) => InsertString txt
  end.

Definition is_document_call (e : event) : bool :=
  match e with
  | InsertString _ | ExecuteDispatch _ => true
  | _ => false
  end.

Definition is_sleep (e : event) : bool :=
  match e with
  | Sleep _ => true
  | _ => false
  end.

(** The events of the monitor thread, as opposed to those of [start] and
    [stop]. *)
Definition is_monitor_event (e : event) : bool :=
  match e with
  | Process _ | InsertString _ | ExecuteDispatch _ | PrintExc | Sleep _ => true
  | Spawn | Join | Notify _ | SetText _ => false
  end.

Definition is_number (v : json) : bool :=
  match v with
  | JInt _ | JFloat _ | JBool _ => true
  | _ => false
  end.

Definition is_thread_call (e : event) : bool :=
  match e with
  | Spawn | Join => true
  | _ => false
  end.

(** Sample dialogs and module state for concrete runs. *)
Definition cancelled_dialog : dialog :=
  {| dlg_execute := Ok 0%Z; dlg_read := Ok (250 # 1, 1%Z, 0%Z); dlg_dispose := Ok tt |}.

Definition confirmed_dialog : dialog :=
  {| dlg_execute := Ok 1%Z; dlg_read := Ok (501 # 2, 1%Z, 0%Z); dlg_dispose := Ok tt |}.

Definition sample_office : office :=
  {| bridge_instance := Some idle_bridge; dumped := None |}.

(** The reading [dict.update] makes of one element of an array: a pair
    under a string key, a pair under another key that can be hashed, or no
    pair at all (not a sequence of two, or a key that cannot be hashed). *)
Definition as_pair (item : json) : option (option (pystr * json)) :=
  match pair_elements item with
  | Ok [k; v] =>
      match k with
      | JStr s => Some (Some (s, v))
      | JArr _ | JObj _ => None
      | _ => Some None
      end
  | _ => None
  end.

(** The string-keyed pairs among the elements of an array that come before
    its first element that is no pair. *)
Fixpoint leading_pairs (items : list json) : list (pystr * json) :=
  match items with
  | [] => []
  | item :: rest =>
      match as_pair item with
      | Some (Some kv) => kv :: leading_pairs rest
      | Some None => leading_pairs rest
      | None => []
      end
  end.

(** * Properties *)

(** ** Strings and tables *)

Lemma is_asciib_spec s : is_asciib s = true -> is_ascii s.
Proof.
  unfold is_asciib, is_ascii. rewrite forallb_forall, List.Forall_forall.
  intros Hs c Hc. apply N.ltb_lt. auto.
Qed.

Section AsciiText.
Context `{rt : Runtime}.

Lemma lstrip_ascii s : is_ascii s -> lstrip s = @lstrip ascii_runtime s.
Proof.
  induction 1 as [|c s Hc Hs IH]; simpl; [reflexivity|].
  rewrite (cp_isspace_ascii c Hc), IH.
  apply N.ltb_lt in Hc. now rewrite Hc.
Qed.

Lemma lstrip_is_ascii s : is_ascii s -> is_ascii (@lstrip ascii_runtime s).
Proof.
  induction 1 as [|c s Hc Hs IH]; simpl; [constructor|].
  destruct (_ && _); [assumption | now constructor].
Qed.

Lemma is_ascii_rev s : is_ascii s -> is_ascii (rev s).
Proof. unfold is_ascii. intros Hs. now apply Forall_rev. Qed.

Lemma strip_ascii s : is_ascii s -> strip s = @strip ascii_runtime s.
Proof.
  intros Hs. unfold strip, rstrip.
  rewrite (lstrip_ascii s Hs).
  now rewrite (lstrip_ascii (rev _) (is_ascii_rev _ (lstrip_is_ascii s Hs))).
Qed.

Lemma strip_is_ascii s : is_ascii s -> is_ascii (@strip ascii_runtime s).
Proof.
  intros Hs. unfold strip, rstrip.
  auto using is_ascii_rev, lstrip_is_ascii.
Qed.

(** On ASCII text every runtime classifies as the ASCII one does. *)
Lemma process_voice_commands_ascii s :
  is_ascii s ->
  process_voice_commands s = @process_voice_commands ascii_runtime s.
Proof.
  intros Hs. unfold process_voice_commands.
  rewrite (strip_ascii s Hs).
  now rewrite (str_lower_ascii _ (strip_is_ascii s Hs)).
Qed.

End AsciiText.

Lemma dict_display_from {V} (items : list (pystr * V)) (d : gmap pystr V) k v :
  foldl (fun d kv => <[kv.1 := kv.2]> d) d items !! k = Some v ->
  (k, v) ∈ items \/ d !! k = Some v.
Proof.
  revert d. induction items as [|[k' v'] items IH]; intros d Hk; simpl in *.
  - now right.
  - destruct (IH _ Hk) as [Hin | Hd].
    + left. apply elem_of_cons. now right.
    + destruct (decide (k' = k)) as [->|Hne].
      * rewrite lookup_insert_eq in Hd. injection Hd as ->.
        left. apply elem_of_cons. now left.
      * rewrite lookup_insert_ne in Hd by assumption. now right.
Qed.

Lemma dict_display_item {V} (items : list (pystr * V)) k v :
  dict_display items !! k = Some v -> (k, v) ∈ items.
Proof.
  intros Hk. destruct (dict_display_from items ∅ k v Hk) as [Hin | He]; [assumption|].
  now rewrite lookup_empty in He.
Qed.

(** Storing the members of an object over [d]: a member's last value wins,
    the other keys keep what [d] had. *)
Lemma lookup_members (ms : list (pystr * json)) (d : dict) k :
  foldl (fun d kv => <[kv.1 := kv.2]> d) d ms !! k =
  match dict_display ms !! k with
  | Some v => Some v
  | None => d !! k
  end.
Proof.
  unfold dict_display.
  induction ms as [|[k' v'] ms IH] using rev_ind; simpl.
  - now rewrite lookup_empty.
  - rewrite !foldl_app. simpl.
    destruct (decide (k' = k)) as [->|Hne].
    + now rewrite !lookup_insert_eq.
    + now rewrite !lookup_insert_ne by assumption.
Qed.

(** ** The classifier *)

(** C1. For every input [s], with [n] the input stripped and lowercased:
    a key [n] of the action table gives [('action', ACTION_COMMANDS[n])];
    otherwise a key [n] of the text table gives [('text', VOICE_COMMANDS[n])];
    otherwise the result is [('insert', s)] with [s] itself. The action
    table is consulted first. *)
Theorem process_voice_commands_rule `{Runtime} (s : pystr) :
  let n := str_lower (strip s) in
  (forall cmd, ACTION_COMMANDS !! n = Some cmd ->
     process_voice_commands s = (action, cmd)) /\
  (ACTION_COMMANDS !! n = None ->
     forall repl, VOICE_COMMANDS !! n = Some repl ->
     process_voice_commands s = (text, repl)) /\
  (ACTION_COMMANDS !! n = None -> VOICE_COMMANDS !! n = None ->
     process_voice_commands s = (insert, s)).
Proof.
  intros n. unfold process_voice_commands. fold n.
  repeat split.
  - intros cmd Ha. now rewrite Ha.
  - intros Ha repl Hv. now rewrite Ha, Hv.
  - intros Ha Hv. now rewrite Ha, Hv.
Qed.

Lemma process_voice_commands_rule_witness :
  @process_voice_commands ascii_runtime (lit " Bold That") = (action, lit ".uno:Bold") /\
  @process_voice_commands ascii_runtime (lit "Question Mark ") = (text, lit "?") /\
  @process_voice_commands ascii_runtime (lit "Hello World") = (insert, lit "Hello World").
Proof.
  split; [|split].
  - apply (proj1 (@process_voice_commands_rule ascii_runtime (lit " Bold That"))).
    vm_compute. reflexivity.
  - apply (proj1 (proj2 (@process_voice_commands_rule ascii_runtime (lit "Question Mark ")))).
    + vm_compute. reflexivity.
    + vm_compute. reflexivity.
  - apply (proj2 (proj2 (@process_voice_commands_rule ascii_runtime (lit "Hello World")))).
    + vm_compute. reflexivity.
    + vm_compute. reflexivity.
Defined.

Lemma action_entries_insensitive :
  forallb insensitive_entry ACTION_COMMANDS_items = true.
Proof. vm_compute. reflexivity. Qed.

Lemma is_ascii_map_upper s : is_ascii s -> is_ascii (List.map ascii_upper_cp s).
Proof.
  unfold is_ascii. intros Hs. apply List.Forall_map.
  eapply List.Forall_impl; [|exact Hs].
  intros c Hc. simpl in *. unfold ascii_upper_cp.
  destruct (_ && _); lia.
Qed.

(** C2. For every key [P] of the action table, [P], [P.upper()] and
    [" " + P + " "] are all classified as the same action. *)
Theorem action_phrase_insensitive `{Runtime} (P cmd : pystr) :
  ACTION_COMMANDS !! P = Some cmd ->
  process_voice_commands P = (action, cmd) /\
  process_voice_commands (str_upper P) = (action, cmd) /\
  process_voice_commands (lit " " ++ P ++ lit " ") = (action, cmd).
Proof.
  intros HP. apply dict_display_item, list_elem_of_In in HP.
  pose proof action_entries_insensitive as Hall.
  rewrite forallb_forall in Hall. specialize (Hall _ HP).
  unfold insensitive_entry in Hall.
  repeat (apply andb_prop in Hall; destruct Hall as [Hall ?]).
  apply is_asciib_spec in Hall.
  repeat match goal with
         | Hb : bool_decide _ = true |- _ => apply bool_decide_eq_true_1 in Hb
         end.
  split; [|split].
  - now rewrite process_voice_commands_ascii.
  - rewrite (str_upper_ascii P Hall).
    now rewrite process_voice_commands_ascii by now apply is_ascii_map_upper.
  - rewrite process_voice_commands_ascii; [assumption|].
    unfold is_ascii in *. apply Forall_app; split; [|apply Forall_app; split; [assumption|]].
    + apply is_asciib_spec. reflexivity.
    + apply is_asciib_spec. reflexivity.
Qed.

Lemma action_phrase_insensitive_witness :
  @process_voice_commands ascii_runtime (lit "save document") = (action, lit ".uno:Save") /\
  @process_voice_commands ascii_runtime (lit "SAVE DOCUMENT") = (action, lit ".uno:Save") /\
  @process_voice_commands ascii_runtime (lit " save document ") = (action, lit ".uno:Save").
Proof.
  apply (@action_phrase_insensitive ascii_runtime (lit "save document") (lit ".uno:Save")).
  vm_compute. reflexivity.
Defined.

(** C7, as the claim has it, fails: the value stored under ["undo that"] is
    not ["UndoCommand"]. *)
Lemma undo_that_not_UndoCommand :
  ~ (ACTION_COMMANDS !! lit "undo that" = Some (lit "UndoCommand") /\
     @process_voice_commands ascii_runtime (lit "Undo That") = (action, lit "UndoCommand")).
Proof. intros [Hk _]. vm_compute in Hk. discriminate Hk. Qed.

(** C7, amended. The action table maps ["undo that"] to [".uno:Undo"], and
    ["Undo That"] is classified as the action [".uno:Undo"]. *)
Theorem undo_that_action `{Runtime} :
  ACTION_COMMANDS !! lit "undo that" = Some (lit ".uno:Undo") /\
  process_voice_commands (lit "Undo That") = (action, lit ".uno:Undo").
Proof.
  split.
  - vm_compute. reflexivity.
  - rewrite process_voice_commands_ascii by (apply is_asciib_spec; reflexivity).
    vm_compute. reflexivity.
Qed.

(** C8, as the claim has it, fails: the two tables do not hold fewer than
    30 entries. *)
Lemma tables_not_under_30 :
  ~ (size VOICE_COMMANDS + size ACTION_COMMANDS < 30)%nat.
Proof. vm_compute. lia. Qed.

(** C8, amended. The text table has 19 entries and the action table 12,
    31 in all, and no phrase is a key of both. *)
Theorem tables_size :
  size VOICE_COMMANDS = 19%nat /\
  size ACTION_COMMANDS = 12%nat /\
  (size VOICE_COMMANDS + size ACTION_COMMANDS = 31)%nat /\
  dom VOICE_COMMANDS ## dom ACTION_COMMANDS.
Proof.
  repeat split; try (vm_compute; reflexivity).
  apply (bool_decide_eq_true_1 (dom VOICE_COMMANDS ## dom ACTION_COMMANDS)).
  vm_compute. reflexivity.
Qed.

(** ** Settings *)

Ltac unfold_M :=
  unfold mbind, M_bind, mret, M_ret, bind, ret, get, modify, emit, lift,
    raise, try_except, state_of, trace_of, outcome_of in *.

(** [load_config] returns the dictionary its [try] block leaves behind. *)
Lemma load_config_returns f :
  load_config f = Ok (state_of (load_config_body f defaults)).
Proof.
  unfold load_config. unfold_M.
  destruct (load_config_body f defaults) as [[d t] [[]|e]]; reflexivity.
Qed.

Lemma defaults_entries :
  defaults !! poll_interval_ms = Some (JInt 300) /\
  defaults !! auto_space = Some (JBool true) /\
  defaults !! show_notifications = Some (JBool true) /\
  size defaults = 3%nat.
Proof. repeat split; vm_compute; reflexivity. Qed.

(** A settings object overrides the defaults key by key. *)
Lemma load_config_object ms :
  exists d,
    load_config (Decoded (JObj ms)) = Ok d /\
    forall k, d !! k = match dict_display ms !! k with
                       | Some v => Some v
                       | None => defaults !! k
                       end.
Proof.
  rewrite load_config_returns. eexists. split; [reflexivity|].
  intros k. simpl. unfold_M. simpl. apply lookup_members.
Qed.

(** An array is stored pair by pair up to its first element that is no
    pair. *)
Lemma update_from_pairs_leading (items : list json) :
  forall d : dict,
    state_of (update_from_pairs items d) =
    foldl (fun d kv => <[kv.1 := kv.2]> d) d (leading_pairs items).
Proof.
  induction items as [|item items IH]; intros d; [reflexivity|].
  cbn [update_from_pairs leading_pairs]. unfold as_pair. unfold_M.
  destruct (pair_elements item) as [[|a [|b [|c l]]]|e]; try reflexivity.
  destruct a; simpl; try reflexivity;
    match goal with
    | |- context [update_from_pairs items ?d'] =>
        specialize (IH d'); destruct (update_from_pairs items d') as [[s1 t1] r1];
        exact IH
    end.
Qed.

Lemma load_config_array (l : list json) :
  exists d,
    load_config (Decoded (JArr l)) = Ok d /\
    forall k, d !! k = match dict_display (leading_pairs l) !! k with
                       | Some v => Some v
                       | None => defaults !! k
                       end.
Proof.
  rewrite load_config_returns. eexists. split; [reflexivity|].
  intros k. simpl. rewrite update_from_pairs_leading. apply lookup_members.
Qed.

Lemma load_config_string (s : pystr) : load_config (Decoded (JStr s)) = Ok defaults.
Proof.
  rewrite load_config_returns. f_equal. simpl.
  destruct s as [|c s]; reflexivity.
Qed.

(** C6, amended. [load_config] never raises and always returns a
    dictionary. With no settings file it returns the defaults
    ([poll_interval_ms] 300, [auto_space] and [show_notifications] true,
    and nothing else); with a file that cannot be opened, is not a JSON
    document, or holds a bare number, boolean, null or string, it returns
    the defaults too; with a file holding a JSON object, each key of the
    object has the object's value and every other key keeps its default;
    with a file holding a JSON array, the elements are stored as key/value
    pairs up to the first element that is no pair, each key so stored has
    the value of its last pair and every other key keeps its default. *)
Theorem load_config_defaults_and_overrides :
  (forall f, exists d, load_config f = Ok d) /\
  (load_config Missing = Ok defaults /\
   defaults !! poll_interval_ms = Some (JInt 300) /\
   defaults !! auto_space = Some (JBool true) /\
   defaults !! show_notifications = Some (JBool true) /\
   size defaults = 3%nat) /\
  (forall e, load_config (Undecodable e) = Ok defaults /\
             load_config (OpenFails e) = Ok defaults /\
             load_config (PathFails e) = Ok defaults) /\
  (forall b z q s, load_config (Decoded JNull) = Ok defaults /\
                   load_config (Decoded (JBool b)) = Ok defaults /\
                   load_config (Decoded (JInt z)) = Ok defaults /\
                   load_config (Decoded (JFloat q)) = Ok defaults /\
                   load_config (Decoded (JStr s)) = Ok defaults) /\
  (forall ms, exists d,
     load_config (Decoded (JObj ms)) = Ok d /\
     forall k, d !! k = match dict_display ms !! k with
                        | Some v => Some v
                        | None => defaults !! k
                        end) /\
  (forall l, exists d,
     load_config (Decoded (JArr l)) = Ok d /\
     forall k, d !! k = match dict_display (leading_pairs l) !! k with
                        | Some v => Some v
                        | None => defaults !! k
                        end).
Proof.
  split; [|split; [|split; [|split; [|split]]]].
  - intros f. rewrite load_config_returns. eauto.
  - split; [reflexivity | exact defaults_entries].
  - intros e. repeat split; reflexivity.
  - intros b z q s. repeat split; try reflexivity. apply load_config_string.
  - exact load_config_object.
  - exact load_config_array.
Qed.

(** An array of pairs is taken by [dict.update] as well, and the pairs
    stored before a bad element stay stored. *)
Example load_config_array_of_pairs :
  load_config (Decoded (JArr [JArr [JStr poll_interval_ms; JInt 50]; JInt 7]))
  = Ok (<[poll_interval_ms := JInt 50]> defaults).
Proof. vm_compute. reflexivity. Qed.

Example malformed_array_raises :
  outcome_of (load_config_body
                (Decoded (JArr [JArr [JStr poll_interval_ms; JInt 50]; JInt 7])) defaults)
  = Raise TypeError.
Proof. vm_compute. reflexivity. Qed.

(** C6, as the claim has it, fails: the file [[["poll_interval_ms", 50], 7]]
    is present and malformed ([dict.update] raises [TypeError] on its
    second element), and what [load_config] returns is not the defaults. *)
Lemma malformed_array_not_defaults :
  ~ (load_config (Decoded (JArr [JArr [JStr poll_interval_ms; JInt 50]; JInt 7]))
     = Ok defaults).
Proof.
  rewrite load_config_array_of_pairs. intros Heq.
  apply (f_equal (fun r : result dict =>
                    match r with
                    | Ok d => d !! poll_interval_ms
                    | Raise _ => None
                    end)) in Heq.
  vm_compute in Heq. discriminate Heq.
Qed.

(** ** Collaborator calls *)

Lemma notify_run w message st :
  _notify w message st =
  (st, Notify message :: uno_trace (w_uno w) (SetText (lit "[Dragon Bridge] " ++ message)) [],
   Ok tt).
Proof. unfold _notify, uno_calls. unfold_M. now destruct (w_uno w). Qed.

Lemma insert_text_run w txt st :
  _insert_text w txt st = (st, uno_trace (w_uno w) (InsertString txt) [PrintExc], Ok tt).
Proof. unfold _insert_text, uno_calls. unfold_M. now destruct (w_uno w). Qed.

Lemma dispatch_uno_command_run w cmd st :
  _dispatch_uno_command w cmd st =
  (st, uno_trace (w_uno w) (ExecuteDispatch cmd) [PrintExc], Ok tt).
Proof. unfold _dispatch_uno_command, uno_calls. unfold_M. now destruct (w_uno w). Qed.

Section MonitorFacts.
Context `{rt : Runtime}.

(** Processing a text never raises and leaves the bridge as it was. *)
Lemma process_clipboard_text_run w txt :
  exists t,
    (forall st, _process_clipboard_text w txt st = (st, Process txt :: t, Ok tt)) /\
    Forall (fun e => is_dispatch e = true \/ e = PrintExc) t.
Proof.
  unfold _process_clipboard_text. unfold_M. simpl.
  destruct (process_voice_commands txt) as [[] r];
    (eexists; split;
     [intros st; rewrite ?insert_text_run, ?dispatch_uno_command_run; reflexivity|]);
    destruct (w_uno w); simpl; repeat (apply Forall_cons; split); auto.
Qed.

(** The five ways through the [try] block. *)
Lemma monitor_try_seq_raises w st e :
  get_clipboard_seq (w_clipboard w) = Raise e ->
  monitor_try w st = (st, [], Raise e).
Proof. intros Hs. unfold monitor_try. unfold_M. now rewrite Hs. Qed.

Lemma monitor_try_unchanged w st :
  get_clipboard_seq (w_clipboard w) = Ok (last_seq st) ->
  monitor_try w st = (st, [], Ok tt).
Proof.
  intros Hs. unfold monitor_try. unfold_M. rewrite Hs.
  now rewrite N.eqb_refl.
Qed.

Lemma monitor_try_text_raises w st n e :
  get_clipboard_seq (w_clipboard w) = Ok n -> n <> last_seq st ->
  get_clipboard_text (w_clipboard w) = Raise e ->
  monitor_try w st = (set_last_seq n st, [], Raise e).
Proof.
  intros Hs Hn Ht. unfold monitor_try. unfold_M. rewrite Hs.
  apply N.eqb_neq in Hn. rewrite Hn. simpl. now rewrite Ht.
Qed.

Lemma monitor_try_stale_text w st n txt :
  get_clipboard_seq (w_clipboard w) = Ok n -> n <> last_seq st ->
  get_clipboard_text (w_clipboard w) = Ok txt ->
  txt = [] \/ txt = last_text st ->
  monitor_try w st = (set_last_seq n st, [], Ok tt).
Proof.
  intros Hs Hn Ht Hstale. unfold monitor_try. unfold_M. rewrite Hs.
  apply N.eqb_neq in Hn. rewrite Hn. simpl. rewrite Ht. simpl.
  destruct Hstale as [-> | ->].
  - reflexivity.
  - rewrite (bool_decide_eq_true_2 (last_text st = last_text st)) by reflexivity.
    now rewrite andb_false_r.
Qed.

Lemma monitor_try_new_text w st n txt :
  get_clipboard_seq (w_clipboard w) = Ok n -> n <> last_seq st ->
  get_clipboard_text (w_clipboard w) = Ok txt ->
  txt <> [] -> txt <> last_text st ->
  exists t,
    monitor_try w st = (set_last_text txt (set_last_seq n st), Process txt :: t, Ok tt) /\
    Forall (fun e => is_dispatch e = true \/ e = PrintExc) t.
Proof.
  intros Hs Hn Ht Hne Hnew. unfold monitor_try. unfold_M. rewrite Hs.
  apply N.eqb_neq in Hn. rewrite Hn. simpl. rewrite Ht. simpl.
  rewrite (bool_decide_eq_false_2 (txt = [])) by assumption.
  rewrite (bool_decide_eq_false_2 (txt = last_text st)) by assumption.
  simpl.
  destruct (process_clipboard_text_run w txt) as (t & Hrun & Ht').
  unfold_M. rewrite Hrun. eauto.
Qed.

End MonitorFacts.

(** ** The monitor loop *)

Section Loop.
Context `{rt : Runtime}.

Lemma monitor_try_cases w st :
  (exists e, get_clipboard_seq (w_clipboard w) = Raise e /\
             monitor_try w st = (st, [], Raise e)) \/
  (get_clipboard_seq (w_clipboard w) = Ok (last_seq st) /\
   monitor_try w st = (st, [], Ok tt)) \/
  (exists n, get_clipboard_seq (w_clipboard w) = Ok n /\ n <> last_seq st /\
     ((exists e, get_clipboard_text (w_clipboard w) = Raise e /\
                 monitor_try w st = (set_last_seq n st, [], Raise e)) \/
      (exists txt, get_clipboard_text (w_clipboard w) = Ok txt /\
                   (txt = [] \/ txt = last_text st) /\
                   monitor_try w st = (set_last_seq n st, [], Ok tt)) \/
      (exists txt t, get_clipboard_text (w_clipboard w) = Ok txt /\
                     txt <> [] /\ txt <> last_text st /\
                     monitor_try w st =
                       (set_last_text txt (set_last_seq n st), Process txt :: t, Ok tt) /\
                     Forall (fun e => is_dispatch e = true \/ e = PrintExc) t))).
Proof.
  destruct (get_clipboard_seq (w_clipboard w)) as [n|e] eqn:Hs.
  2:{ left. exists e. split; [reflexivity | now apply monitor_try_seq_raises]. }
  right. destruct (decide (n = last_seq st)) as [->|Hn].
  { left. split; [reflexivity | now apply monitor_try_unchanged]. }
  right. exists n. split; [reflexivity|]. split; [assumption|].
  destruct (get_clipboard_text (w_clipboard w)) as [txt|e] eqn:Ht.
  2:{ left. exists e. split; [reflexivity | now apply monitor_try_text_raises]. }
  right. destruct (decide (txt = [])) as [He|He].
  { left. exists txt. split; [reflexivity|]. split; [now left|].
    apply (monitor_try_stale_text w st n txt); auto. }
  destruct (decide (txt = last_text st)) as [Hl|Hl].
  { left. exists txt. split; [reflexivity|]. split; [now right|].
    apply (monitor_try_stale_text w st n txt); auto. }
  right. destruct (monitor_try_new_text w st n txt Hs Hn Ht He Hl) as (t & Hrun & Hall).
  exists txt, t. auto.
Qed.

(** The body of the [while]: the [try] block, the handler when it raised,
    then the sleep. *)
Lemma monitor_iteration_run sec w st :
  monitor_iteration sec w st =
  (state_of (monitor_try w st),
   trace_of (monitor_try w st)
     ++ match outcome_of (monitor_try w st) with Ok _ => [] | Raise _ => [PrintExc] end
     ++ [Sleep sec],
   sleep_result sec).
Proof.
  unfold monitor_iteration, time_sleep. unfold_M.
  destruct (monitor_try w st) as [[s1 t1] [[]|e]]; simpl;
    destruct (sleep_result sec) as [[]|e']; simpl; now rewrite <- ?app_assoc.
Qed.

Lemma monitor_try_running w st : running (state_of (monitor_try w st)) = running st.
Proof.
  destruct (monitor_try_cases w st)
    as [(e & _ & ->) | [(_ & ->) | (n & _ & _ &
          [(e & _ & ->) | [(txt & _ & _ & ->) | (txt & t & _ & _ & _ & -> & _)]])]];
    reflexivity.
Qed.

Lemma monitor_try_config w st : config (state_of (monitor_try w st)) = config st.
Proof.
  destruct (monitor_try_cases w st)
    as [(e & _ & ->) | [(_ & ->) | (n & _ & _ &
          [(e & _ & ->) | [(txt & _ & _ & ->) | (txt & t & _ & _ & _ & -> & _)]])]];
    reflexivity.
Qed.

Lemma monitor_while_stopped sec ws st :
  running st = false -> monitor_while sec ws st = (st, [], Ok Returned).
Proof. intros Hr. destruct ws; simpl; unfold_M; now rewrite Hr. Qed.

Lemma monitor_while_idle sec st :
  running st = true -> monitor_while sec [] st = (st, [], Ok Polling).
Proof. intros Hr. simpl. unfold_M. now rewrite Hr. Qed.

(** A pass whose sleep is accepted is followed by the rest of the loop. *)
Lemma monitor_while_step sec w ws st :
  running st = true -> sleep_result sec = Ok tt ->
  monitor_while sec (w :: ws) st =
  (state_of (monitor_while sec ws (state_of (monitor_iteration sec w st))),
   trace_of (monitor_iteration sec w st)
     ++ trace_of (monitor_while sec ws (state_of (monitor_iteration sec w st))),
   outcome_of (monitor_while sec ws (state_of (monitor_iteration sec w st)))).
Proof.
  intros Hr Hsec. simpl. unfold_M. rewrite Hr.
  rewrite monitor_iteration_run, Hsec. simpl.
  now destruct (monitor_while sec ws _) as [[s2 t2] r2].
Qed.

(** A pass whose sleep is refused ends the thread. *)
Lemma monitor_while_dies sec w ws st e :
  running st = true -> sleep_result sec = Raise e ->
  monitor_while sec (w :: ws) st =
  (state_of (monitor_iteration sec w st), trace_of (monitor_iteration sec w st),
   Raise e).
Proof.
  intros Hr Hsec. simpl. unfold_M. rewrite Hr.
  rewrite monitor_iteration_run, Hsec. reflexivity.
Qed.

End Loop.

Section Dispatch.
Context `{rt : Runtime}.

Lemma dispatches_app t1 t2 : dispatches (t1 ++ t2) = dispatches t1 ++ dispatches t2.
Proof. unfold dispatches. apply List.filter_app. Qed.

(** The dispatch events of one pass are those of its [try] block. *)
Lemma dispatches_iteration sec w st :
  dispatches (trace_of (monitor_iteration sec w st)) =
  dispatches (trace_of (monitor_try w st)).
Proof.
  rewrite monitor_iteration_run. unfold trace_of at 1. simpl.
  rewrite !dispatches_app.
  destruct (outcome_of (monitor_try w st)); simpl; now rewrite app_nil_r.
Qed.

Lemma process_in_iteration sec w st txt :
  Process txt ∈ trace_of (monitor_try w st) ->
  Process txt ∈ trace_of (monitor_iteration sec w st).
Proof.
  intros Hin. rewrite monitor_iteration_run. unfold trace_of at 1. simpl.
  apply elem_of_app. now left.
Qed.

End Dispatch.





(** ** Starting and stopping *)

Lemma start_running w st : running st = true -> start w st = (st, [], Ok tt).
Proof. intros Hr. unfold start. unfold_M. now rewrite Hr. Qed.

(** [start] on a stopped bridge, when both clipboard reads succeed. *)
Lemma start_stopped w st n txt :
  running st = false ->
  get_clipboard_seq (w_clipboard w) = Ok n ->
  get_clipboard_text (w_clipboard w) = Ok txt ->
  start w st =
  (set_thread (Some MonitorThread) (set_last_text txt (set_last_seq n (set_running true st))),
   Spawn :: Notify started_message
     :: uno_trace (w_uno w) (SetText (lit "[Dragon Bridge] " ++ started_message)) [],
   Ok tt).
Proof.
  intros Hr Hs Ht. unfold start. unfold_M. rewrite Hr, Hs. simpl. rewrite Ht. simpl.
  rewrite notify_run. reflexivity.
Qed.

Lemma start_sets_running w st : running (state_of (start w st)) = true.
Proof.
  destruct (running st) eqn:Hr.
  - now rewrite start_running.
  - unfold start. unfold_M. rewrite Hr.
    destruct (get_clipboard_seq (w_clipboard w)); simpl; [|reflexivity].
    destruct (get_clipboard_text (w_clipboard w)); simpl; [|reflexivity].
    rewrite notify_run. reflexivity.
Qed.

Lemma stop_run w st :
  stop w st =
  (set_thread None (set_running false st),
   (match thread st with Some _ => [Join] | None => [] end)
     ++ (Notify stopped_message
         :: uno_trace (w_uno w) (SetText (lit "[Dragon Bridge] " ++ stopped_message)) []),
   Ok tt).
Proof.
  unfold stop. unfold_M. simpl.
  destruct st as [r [th|] c n t]; simpl; rewrite notify_run; reflexivity.
Qed.




(** ** The settings the bridge reads *)

Section ConfigIndependence.
Context `{rt : Runtime}.






End ConfigIndependence.

Section SettingsRead.
Context `{rt : Runtime}.

Lemma monitor_loop_run ws st :
  _monitor_loop ws st =
  match poll_sec (config st) with
  | Ok sec => monitor_while sec ws st
  | Raise e => (st, [], Raise e)
  end.
Proof.
  unfold _monitor_loop. unfold_M.
  destruct (poll_sec (config st)) as [sec|e]; [|reflexivity].
  now destruct (monitor_while sec ws st) as [[s t] r].
Qed.







End SettingsRead.





Section Sleeping.
Context `{rt : Runtime}.

Lemma monitor_try_no_sleep w st q : Sleep q ∉ trace_of (monitor_try w st).
Proof.
  intros Hin.
  destruct (monitor_try_cases w st)
    as [(e & _ & Hrun) | [(_ & Hrun) | (n & _ & _ &
          [(e & _ & Hrun) | [(txt & _ & _ & Hrun) | (txt & t & _ & _ & _ & Hrun & Ht)]])]];
    rewrite Hrun in Hin; unfold trace_of in Hin; simpl in Hin;
    try (now apply elem_of_nil in Hin).
  apply elem_of_cons in Hin as [Hin|Hin]; [discriminate|].
  rewrite Forall_forall in Ht. destruct (Ht _ Hin) as [Hd|Hd]; discriminate.
Qed.

Lemma monitor_iteration_sleep sec w st q :
  Sleep q ∈ trace_of (monitor_iteration sec w st) <-> q = sec.
Proof.
  rewrite monitor_iteration_run. unfold trace_of at 1. simpl. split.
  - intros Hin. apply elem_of_app in Hin as [Hin|Hin].
    { now apply monitor_try_no_sleep in Hin. }
    apply elem_of_app in Hin as [Hin|Hin].
    + destruct (outcome_of (monitor_try w st)).
      * now apply elem_of_nil in Hin.
      * apply elem_of_cons in Hin as [Hin|Hin]; [discriminate|].
        now apply elem_of_nil in Hin.
    + apply elem_of_cons in Hin as [Hin|Hin]; [congruence|].
      now apply elem_of_nil in Hin.
  - intros ->. apply elem_of_app. right. apply elem_of_app. right.
    apply elem_of_cons. now left.
Qed.

(** Every sleep of the loop is for the interval computed before it. *)
Lemma monitor_while_sleeps sec ws st q :
  Sleep q ∈ trace_of (monitor_while sec ws st) -> q = sec.
Proof.
  revert st. induction ws as [|w ws IH]; intros st Hin.
  - simpl in Hin. unfold_M. destruct (running st); simpl in Hin;
      now apply elem_of_nil in Hin.
  - destruct (running st) eqn:Hr.
    2:{ rewrite monitor_while_stopped in Hin by assumption.
        now apply elem_of_nil in Hin. }
    destruct (sleep_result sec) as [[]|esl] eqn:Hsec.
    + rewrite monitor_while_step in Hin by assumption.
      unfold trace_of at 1 in Hin. simpl in Hin.
      apply elem_of_app in Hin as [Hin|Hin].
      * now apply monitor_iteration_sleep in Hin.
      * eauto.
    + rewrite (monitor_while_dies _ _ _ _ esl) in Hin by assumption.
      unfold trace_of at 1 in Hin. simpl in Hin.
      now apply monitor_iteration_sleep in Hin.
Qed.

(** A running loop given a pass to make does sleep. *)
Lemma monitor_while_first_sleep sec w ws st :
  running st = true -> Sleep sec ∈ trace_of (monitor_while sec (w :: ws) st).
Proof.
  intros Hr. destruct (sleep_result sec) as [[]|esl] eqn:Hsec.
  - rewrite monitor_while_step by assumption. unfold trace_of at 1. simpl.
    apply elem_of_app. left. now apply monitor_iteration_sleep.
  - rewrite (monitor_while_dies _ _ _ _ esl) by assumption. unfold trace_of at 1. simpl.
    now apply monitor_iteration_sleep.
Qed.

End Sleeping.

(** The interval at its edges: an integer beyond the range of a [float],
    and lengths beyond the range of [time.sleep], of either sign. *)
Example div_1000_overflow :
  div_1000 (JInt (10 ^ 400)) = Raise OverflowError /\
  div_1000 (JInt (float_limit - 1)) = Ok ((float_limit - 1) # 1000) /\
  div_1000 (JInt float_limit) = Raise OverflowError /\
  div_1000 (JInt (- float_limit)) = Raise OverflowError.
Proof. repeat split; vm_compute; reflexivity. Qed.

Example sleep_result_edges :
  sleep_result (300 # 1000) = Ok tt /\
  sleep_result (0 # 1000) = Ok tt /\
  sleep_result (-5 # 1000) = Raise ValueError /\
  sleep_result (10 ^ 22 # 1000) = Raise OverflowError /\
  sleep_result (- 10 ^ 22 # 1000) = Raise OverflowError.
Proof. repeat split; vm_compute; reflexivity. Qed.

(** An integer too large for a [float] ends the loop before its first
    pass. *)
Lemma overflowing_interval_ends_loop `{Runtime} (z : Z) (ws : list world) (st : bridge) :
  config st !! poll_interval_ms = Some (JInt z) -> int_fits_float z = false ->
  _monitor_loop ws st = (st, [], Raise OverflowError).
Proof.
  intros Hc Hz.
  assert (Hp : poll_sec (config st) = Raise OverflowError).
  { unfold poll_sec. rewrite Hc. simpl. now rewrite Hz. }
  now rewrite monitor_loop_run, Hp.
Qed.

(** C10, as the claim has it, fails: for the integer [10^400] under
    [poll_interval_ms] the loop never sleeps, for [10^400 / 1000] seconds
    or any other length. *)
Lemma huge_poll_interval_never_sleeps :
  ~ (exists d,
       load_config (Decoded (JObj [(poll_interval_ms, JInt (10 ^ 400))])) = Ok d /\
       d !! poll_interval_ms = Some (JInt (10 ^ 400)) /\
       Sleep (10 ^ 400 # 1000) ∈
         trace_of (@_monitor_loop ascii_runtime [sample_world 8 "period" UnoDone]
                     (set_config d idle_bridge))).
Proof.
  intros (d & _ & Hpoll & Hin).
  rewrite (@overflowing_interval_ends_loop ascii_runtime (10 ^ 400)) in Hin.
  - now apply elem_of_nil in Hin.
  - exact Hpoll.
  - vm_compute. reflexivity.
Qed.

(** C10, amended. [load_config] does not clamp [poll_interval_ms]: whatever
    value a settings object gives that key is the value returned, below 100
    and above 2000 included. When it is an integer [z] that converts to a
    [float], the monitor loop computes [z / 1000] seconds and calls
    [time.sleep] with exactly that in every pass; an integer too large for
    a [float] makes the loop raise [OverflowError] before its first
    pass. *)
Theorem poll_interval_not_clamped `{Runtime} (ms : list (pystr * json)) (v : json) :
  dict_display ms !! poll_interval_ms = Some v ->
  exists d,
    load_config (Decoded (JObj ms)) = Ok d /\
    d !! poll_interval_ms = Some v /\
    forall z, v = JInt z ->
      (int_fits_float z = true ->
       poll_sec d = Ok (z # 1000) /\
       forall st ws, config st = d ->
         (forall q, Sleep q ∈ trace_of (_monitor_loop ws st) -> q = z # 1000) /\
         (running st = true -> ws <> [] ->
          Sleep (z # 1000) ∈ trace_of (_monitor_loop ws st))) /\
      (int_fits_float z = false ->
       forall st ws, config st = d ->
         _monitor_loop ws st = (st, [], Raise OverflowError)).
Proof.
  intros Hv.
  destruct (load_config_object ms) as (d & Hload & Hd).
  exists d. split; [assumption|].
  assert (Hpoll : d !! poll_interval_ms = Some v) by now rewrite Hd, Hv.
  split; [assumption|].
  intros z ->. split.
  - intros Hfit.
    assert (Hsec : poll_sec d = Ok (z # 1000)).
    { unfold poll_sec. rewrite Hpoll. simpl. now rewrite Hfit. }
    split; [assumption|].
    intros st ws Hc. rewrite monitor_loop_run, Hc, Hsec. split.
    + apply monitor_while_sleeps.
    + intros Hr Hws. destruct ws as [|w ws]; [contradiction|].
      now apply monitor_while_first_sleep.
  - intros Hfit st ws Hc. apply (overflowing_interval_ends_loop z); [|assumption].
    now rewrite Hc.
Qed.

Lemma poll_interval_not_clamped_witness :
  exists d,
    load_config (Decoded (JObj [(auto_space, JBool false); (poll_interval_ms, JInt 5000)]))
      = Ok d /\
    d !! poll_interval_ms = Some (JInt 5000) /\
    poll_sec d = Ok (5000 # 1000).
Proof.
  destruct (@poll_interval_not_clamped ascii_runtime
              [(auto_space, JBool false); (poll_interval_ms, JInt 5000)] (JInt 5000))
    as (d & Hload & Hpoll & Hsec).
  - vm_compute. reflexivity.
  - exists d. split; [exact Hload|]. split; [exact Hpoll|].
    refine (proj1 (proj1 (Hsec 5000%Z eq_refl) _)).
    vm_compute. reflexivity.
Defined.

(** * Further properties *)

(** ** Normalisation *)

Section Blank.
Context `{rt : Runtime}.

Lemma lstrip_blank_app ws x : is_blank ws -> lstrip (ws ++ x) = lstrip x.
Proof.
  induction 1 as [|c ws Hc Hws IH]; simpl; [reflexivity|]. now rewrite Hc.
Qed.

Lemma lstrip_blank ws : is_blank ws -> lstrip ws = [].
Proof.
  intros Hws. rewrite <- (app_nil_r ws). now rewrite lstrip_blank_app.
Qed.

Lemma lstrip_nil_blank s : lstrip s = [] -> is_blank s.
Proof.
  induction s as [|c s IH]; simpl; intros Hs; [constructor|].
  destruct (cp_isspace c) eqn:Hc; [|discriminate].
  apply Forall_cons. split; [exact Hc | exact (IH Hs)].
Qed.

Lemma lstrip_app_kept s y : lstrip s <> [] -> lstrip (s ++ y) = lstrip s ++ y.
Proof.
  induction s as [|c s IH]; simpl; intros Hs; [contradiction|].
  destruct (cp_isspace c); [auto | reflexivity].
Qed.

Lemma is_blank_rev ws : is_blank ws -> is_blank (rev ws).
Proof. unfold is_blank. intros Hws. now apply Forall_rev. Qed.

Lemma rstrip_app_blank x ws : is_blank ws -> rstrip (x ++ ws) = rstrip x.
Proof.
  intros Hws. unfold rstrip. rewrite rev_app_distr.
  now rewrite lstrip_blank_app by now apply is_blank_rev.
Qed.

(** White space around a text does not reach the classifier. *)
Lemma strip_padding ws1 s ws2 :
  is_blank ws1 -> is_blank ws2 -> strip (ws1 ++ s ++ ws2) = strip s.
Proof.
  intros H1 H2. unfold strip. rewrite lstrip_blank_app by assumption.
  destruct (lstrip s) as [|c r] eqn:Hs.
  - rewrite lstrip_blank; [reflexivity|].
    unfold is_blank in *. apply Forall_app. split; [|assumption].
    now apply lstrip_nil_blank.
  - rewrite lstrip_app_kept by (rewrite Hs; discriminate).
    rewrite Hs. now apply rstrip_app_blank.
Qed.

Lemma strip_blank s : is_blank s -> strip s = [].
Proof. intros Hs. unfold strip. now rewrite lstrip_blank. Qed.

(** The classification depends on the normalised text only. *)
Lemma same_command_normalised s1 s2 :
  str_lower (strip s1) = str_lower (strip s2) ->
  same_command (process_voice_commands s1) (process_voice_commands s2).
Proof.
  intros Hn. unfold same_command, process_voice_commands. rewrite Hn.
  destruct (ACTION_COMMANDS !! _); [now split|].
  destruct (VOICE_COMMANDS !! _); [now split|].
  split; [reflexivity|]. intros Hi. now contradiction Hi.
Qed.

End Blank.

(** X1. For every key [P] of the text table, [P], [P.upper()] and
    [" " + P + " "] are all classified as the text the table gives. *)
Theorem text_phrase_insensitive `{Runtime} (P repl : pystr) :
  VOICE_COMMANDS !! P = Some repl ->
  process_voice_commands P = (text, repl) /\
  process_voice_commands (str_upper P) = (text, repl) /\
  process_voice_commands (lit " " ++ P ++ lit " ") = (text, repl).
Proof.
  intros HP. apply dict_display_item, list_elem_of_In in HP.
  assert (Hall : forallb insensitive_text_entry VOICE_COMMANDS_items = true)
    by (vm_compute; reflexivity).
  rewrite forallb_forall in Hall. specialize (Hall _ HP).
  unfold insensitive_text_entry in Hall.
  repeat (apply andb_prop in Hall; destruct Hall as [Hall ?]).
  apply is_asciib_spec in Hall.
  repeat match goal with
         | Hb : bool_decide _ = true |- _ => apply bool_decide_eq_true_1 in Hb
         end.
  split; [|split].
  - now rewrite process_voice_commands_ascii.
  - rewrite (str_upper_ascii P Hall).
    now rewrite process_voice_commands_ascii by now apply is_ascii_map_upper.
  - rewrite process_voice_commands_ascii; [assumption|].
    unfold is_ascii in *. apply Forall_app; split; [|apply Forall_app; split; [assumption|]].
    + apply is_asciib_spec. reflexivity.
    + apply is_asciib_spec. reflexivity.
Qed.

Lemma text_phrase_insensitive_witness :
  @process_voice_commands ascii_runtime (lit "new paragraph") = (text, [10; 10]) /\
  @process_voice_commands ascii_runtime (lit "NEW PARAGRAPH") = (text, [10; 10]) /\
  @process_voice_commands ascii_runtime (lit " new paragraph ") = (text, [10; 10]).
Proof.
  apply (@text_phrase_insensitive ascii_runtime (lit "new paragraph") [10; 10]).
  vm_compute. reflexivity.
Defined.

(** X2. White space before and after a text changes nothing in its
    classification: the tag is the same, and so is the payload of an action
    or a substitution; a passed-through text keeps its padding. *)
Theorem padding_is_ignored `{Runtime} (ws1 s ws2 : pystr) :
  is_blank ws1 -> is_blank ws2 ->
  same_command (process_voice_commands (ws1 ++ s ++ ws2)) (process_voice_commands s) /\
  ((process_voice_commands s).1 = insert ->
   process_voice_commands (ws1 ++ s ++ ws2) = (insert, ws1 ++ s ++ ws2)).
Proof.
  intros H1 H2.
  assert (Hn : str_lower (strip (ws1 ++ s ++ ws2)) = str_lower (strip s))
    by now rewrite strip_padding.
  split; [now apply same_command_normalised|].
  unfold process_voice_commands. rewrite Hn.
  destruct (ACTION_COMMANDS !! _); [discriminate|].
  destruct (VOICE_COMMANDS !! _); [discriminate|]. reflexivity.
Qed.

Lemma padding_is_ignored_witness :
  same_command (@process_voice_commands ascii_runtime ([9; 32] ++ lit "Cut That" ++ [10]))
               (@process_voice_commands ascii_runtime (lit "Cut That")).
Proof.
  apply (@padding_is_ignored ascii_runtime [9; 32] (lit "Cut That") [10]).
  - repeat constructor.
  - repeat constructor.
Defined.

(** X3. Text made of white space only, the empty text included, is passed
    through as it is. *)
Theorem blank_is_inserted `{Runtime} (s : pystr) :
  is_blank s -> process_voice_commands s = (insert, s).
Proof.
  intros Hs. unfold process_voice_commands.
  rewrite (strip_blank s Hs), (str_lower_ascii [] (List.Forall_nil _)). reflexivity.
Qed.

Lemma blank_is_inserted_witness :
  @process_voice_commands ascii_runtime [32; 10; 9] = (insert, [32; 10; 9]).
Proof.
  apply (@blank_is_inserted ascii_runtime [32; 10; 9]). repeat constructor.
Defined.

Lemma ascii_space_lower c :
  @cp_isspace ascii_runtime (ascii_lower_cp c) = @cp_isspace ascii_runtime c.
Proof.
  simpl. unfold ascii_lower_cp, ascii_isspace.
  destruct (N.leb_spec 65 c), (N.leb_spec c 90); simpl; try reflexivity.
  repeat match goal with
         | |- context [(?a <=? ?b)%N] => destruct (N.leb_spec a b)
         | |- context [(?a <? ?b)%N] => destruct (N.ltb_spec a b)
         end; simpl; try reflexivity; lia.
Qed.

Lemma lstrip_map_lower s :
  @lstrip ascii_runtime (List.map ascii_lower_cp s) =
  List.map ascii_lower_cp (@lstrip ascii_runtime s).
Proof.
  induction s as [|c s IH]; [reflexivity|].
  cbn [List.map lstrip]. rewrite ascii_space_lower.
  destruct (@cp_isspace ascii_runtime c); [exact IH | reflexivity].
Qed.

Lemma strip_map_lower s :
  @strip ascii_runtime (List.map ascii_lower_cp s) =
  List.map ascii_lower_cp (@strip ascii_runtime s).
Proof.
  unfold strip, rstrip.
  now rewrite lstrip_map_lower, <- List.map_rev, lstrip_map_lower, List.map_rev.
Qed.

(** On ASCII text the normalised form is the stripped lower-case text. *)
Lemma normalised_ascii `{Runtime} s :
  is_ascii s ->
  str_lower (strip s) = @strip ascii_runtime (List.map ascii_lower_cp s).
Proof.
  intros Hs. rewrite (strip_ascii s Hs).
  rewrite (str_lower_ascii _ (strip_is_ascii s Hs)).
  symmetry. apply strip_map_lower.
Qed.

(** X4. Two ASCII texts that differ in letter case only are classified
    alike: the same tag, and the same action or substitution. *)
Theorem letter_case_is_ignored `{Runtime} (s1 s2 : pystr) :
  is_ascii s1 -> is_ascii s2 ->
  List.map ascii_lower_cp s1 = List.map ascii_lower_cp s2 ->
  same_command (process_voice_commands s1) (process_voice_commands s2).
Proof.
  intros H1 H2 Heq. apply same_command_normalised.
  now rewrite !normalised_ascii, Heq by assumption.
Qed.

Lemma letter_case_is_ignored_witness :
  same_command (@process_voice_commands ascii_runtime (lit "sELECT aLL"))
               (@process_voice_commands ascii_runtime (lit "Select All")).
Proof.
  apply (@letter_case_is_ignored ascii_runtime (lit "sELECT aLL") (lit "Select All")).
  - apply is_asciib_spec. reflexivity.
  - apply is_asciib_spec. reflexivity.
  - reflexivity.
Defined.

(** The keys of both tables are made of lower-case letters and spaces and
    have at most 18 characters. *)
Lemma key_shape k v :
  ACTION_COMMANDS !! k = Some v \/ VOICE_COMMANDS !! k = Some v ->
  forallb lower_or_space k = true /\ (length k <= 18)%nat.
Proof.
  assert (Hall : forallb (fun kv : pystr * pystr =>
                   forallb lower_or_space kv.1 && (length kv.1 <=? 18)%nat)
                   (ACTION_COMMANDS_items ++ VOICE_COMMANDS_items) = true)
    by (vm_compute; reflexivity).
  rewrite forallb_forall in Hall.
  intros Hk.
  assert (Hin : In (k, v) (ACTION_COMMANDS_items ++ VOICE_COMMANDS_items)).
  { apply in_or_app.
    destruct Hk as [Hk|Hk]; apply dict_display_item, list_elem_of_In in Hk; auto. }
  apply Hall in Hin. cbn [fst] in Hin.
  apply andb_prop in Hin as [Hc Hl].
  split; [assumption | now apply Nat.leb_le].
Qed.

(** A normalised text that is no key is passed through. *)
Lemma not_a_key_inserted `{Runtime} s :
  (forall v, ~ (ACTION_COMMANDS !! str_lower (strip s) = Some v \/
                VOICE_COMMANDS !! str_lower (strip s) = Some v)) ->
  process_voice_commands s = (insert, s).
Proof.
  intros Hno. unfold process_voice_commands.
  destruct (ACTION_COMMANDS !! _) as [v|] eqn:Ha.
  { exfalso. apply (Hno v). now left. }
  destruct (VOICE_COMMANDS !! _) as [v|] eqn:Hv.
  { exfalso. apply (Hno v). now right. }
  reflexivity.
Qed.

Lemma lower_keeps_other c :
  letter_or_space c = false -> lower_or_space (ascii_lower_cp c) = false.
Proof.
  unfold letter_or_space. intros Hc.
  apply orb_false_iff in Hc as [Hc Hlow].
  apply orb_false_iff in Hc as [Hsp Hup].
  unfold ascii_lower_cp. rewrite Hup.
  unfold lower_or_space. now rewrite Hsp, Hlow.
Qed.

(** X5. An ASCII text that, once stripped, holds a character other than a
    letter or a space (a digit, a punctuation mark, a line break inside) is
    never a command: it is passed through unchanged. *)
Theorem punctuated_is_inserted `{Runtime} (s : pystr) (c : N) :
  is_ascii s -> c ∈ strip s -> letter_or_space c = false ->
  process_voice_commands s = (insert, s).
Proof.
  intros Hs Hc Hl. apply not_a_key_inserted. intros v Hk.
  apply key_shape in Hk as [Hk _].
  rewrite (strip_ascii s Hs) in Hc.
  rewrite (strip_ascii s Hs), (str_lower_ascii _ (strip_is_ascii s Hs)) in Hk.
  rewrite forallb_forall in Hk.
  specialize (Hk (ascii_lower_cp c)).
  rewrite (lower_keeps_other c Hl) in Hk.
  assert (Hfalse : false = true); [|discriminate].
  apply Hk. apply List.in_map. now apply list_elem_of_In.
Qed.

Lemma punctuated_is_inserted_witness :
  @process_voice_commands ascii_runtime (lit "Undo that.") = (insert, lit "Undo that.").
Proof.
  apply (@punctuated_is_inserted ascii_runtime (lit "Undo that.") 46).
  - apply is_asciib_spec. reflexivity.
  - apply list_elem_of_In. vm_compute. auto 20.
  - reflexivity.
Defined.

(** X6. An ASCII text of more than 18 characters after stripping is never a
    command: a phrase is matched whole, not inside a longer text. *)
Theorem long_is_inserted `{Runtime} (s : pystr) :
  is_ascii s -> (18 < length (strip s))%nat ->
  process_voice_commands s = (insert, s).
Proof.
  intros Hs Hlen. apply not_a_key_inserted. intros v Hk.
  apply key_shape in Hk as [_ Hk].
  rewrite (strip_ascii s Hs) in Hlen.
  rewrite (strip_ascii s Hs), (str_lower_ascii _ (strip_is_ascii s Hs)) in Hk.
  rewrite List.length_map in Hk. unfold pystr, codepoint in *. lia.
Qed.

Lemma long_is_inserted_witness :
  @process_voice_commands ascii_runtime (lit "please undo that now")
  = (insert, lit "please undo that now").
Proof.
  apply (@long_is_inserted ascii_runtime (lit "please undo that now")).
  - apply is_asciib_spec. reflexivity.
  - apply Nat.ltb_lt. vm_compute. reflexivity.
Defined.

(** ** Processing one clipboard text *)

Section Processing.
Context `{rt : Runtime}.

Lemma process_clipboard_text_trace w txt st :
  _process_clipboard_text w txt st =
  (st, Process txt :: uno_trace (w_uno w) (document_call txt) [PrintExc], Ok tt).
Proof.
  unfold _process_clipboard_text, document_call. unfold_M. simpl.
  destruct (process_voice_commands txt) as [[] r];
    now rewrite ?insert_text_run, ?dispatch_uno_command_run.
Qed.

Lemma monitor_try_new_text_trace w st n txt :
  get_clipboard_seq (w_clipboard w) = Ok n -> n <> last_seq st ->
  get_clipboard_text (w_clipboard w) = Ok txt ->
  txt <> [] -> txt <> last_text st ->
  monitor_try w st =
  (set_last_text txt (set_last_seq n st),
   Process txt :: uno_trace (w_uno w) (document_call txt) [PrintExc], Ok tt).
Proof.
  intros Hs Hn Ht Hne Hnew. unfold monitor_try. unfold_M. rewrite Hs.
  apply N.eqb_neq in Hn. rewrite Hn. simpl. rewrite Ht. simpl.
  rewrite (bool_decide_eq_false_2 (txt = [])) by assumption.
  rewrite (bool_decide_eq_false_2 (txt = last_text st)) by assumption.
  simpl.
  pose proof (process_clipboard_text_trace w txt) as Hrun.
  unfold_M. now rewrite Hrun.
Qed.

(** A classification as an action comes from the action table. *)
Lemma action_from_table txt cmd :
  process_voice_commands txt = (action, cmd) ->
  ACTION_COMMANDS !! str_lower (strip txt) = Some cmd.
Proof.
  unfold process_voice_commands.
  destruct (ACTION_COMMANDS !! _) as [a|]; [congruence|].
  destruct (VOICE_COMMANDS !! _); discriminate.
Qed.

Lemma action_values_are_uno_urls k cmd :
  ACTION_COMMANDS !! k = Some cmd -> take 5 cmd = lit ".uno:".
Proof.
  intros Hk. apply dict_display_item, list_elem_of_In in Hk.
  assert (Hall : forallb (fun kv : pystr * pystr =>
                            bool_decide (take 5 kv.2 = lit ".uno:"))
                   ACTION_COMMANDS_items = true) by (vm_compute; reflexivity).
  rewrite forallb_forall in Hall. apply Hall in Hk.
  now apply bool_decide_eq_true_1 in Hk.
Qed.

(** A property of the events the monitor thread can produce holds of all
    the events of a pass. *)
Lemma monitor_iteration_trace_Forall (P : event -> Prop) sec w st :
  (forall txt, P (Process txt)) ->
  (forall txt, P (document_call txt)) ->
  P PrintExc -> P (Sleep sec) ->
  Forall P (trace_of (monitor_iteration sec w st)).
Proof.
  intros Hp Hd He Hs. rewrite monitor_iteration_run. unfold trace_of at 1. simpl.
  apply Forall_app. split; [|apply Forall_app; split].
  - destruct (monitor_try_cases w st)
      as [(e & _ & ->) | [(_ & ->) | (n & Hseq & Hn &
            [(e & _ & ->) | [(txt & _ & _ & ->) | (txt & t & Ht & Hne & Hl & _ & _)]])]];
      try (unfold trace_of; simpl; constructor).
    rewrite (monitor_try_new_text_trace w st n txt Hseq Hn Ht Hne Hl).
    unfold trace_of. simpl. apply Forall_cons. split; [apply Hp|].
    destruct (w_uno w); simpl; repeat (apply Forall_cons; split); auto;
      apply Forall_nil; exact I.
  - destruct (outcome_of (monitor_try w st)).
    + apply Forall_nil. exact I.
    + apply Forall_cons. split; [assumption | apply Forall_nil; exact I].
  - apply Forall_cons. split; [assumption | apply Forall_nil; exact I].
Qed.

Lemma monitor_while_trace_Forall (P : event -> Prop) sec ws st :
  (forall txt, P (Process txt)) ->
  (forall txt, P (document_call txt)) ->
  P PrintExc -> P (Sleep sec) ->
  Forall P (trace_of (monitor_while sec ws st)).
Proof.
  intros Hp Hd He Hs. revert st. induction ws as [|w ws IH]; intros st.
  - simpl. unfold_M. destruct (running st); simpl; apply Forall_nil; exact I.
  - destruct (running st) eqn:Hr.
    2:{ rewrite monitor_while_stopped by assumption. apply Forall_nil. exact I. }
    destruct (sleep_result sec) as [[]|esl] eqn:Hsec.
    + rewrite monitor_while_step by assumption. unfold trace_of at 1. simpl.
      apply Forall_app. split; [|apply IH].
      now apply monitor_iteration_trace_Forall.
    + rewrite (monitor_while_dies _ _ _ _ esl) by assumption. unfold trace_of at 1. simpl.
      now apply monitor_iteration_trace_Forall.
Qed.

End Processing.

(** X7. Processing a clipboard text never raises and leaves the bridge as
    it is; it makes at most one call on the document. When UNO goes through
    that call is the one the classification asks for. A UNO failure is only
    printed: when it comes before the document call nothing reaches the
    document, when the document call or a call after it raises the call
    has been made. *)
Theorem process_clipboard_text_contained `{Runtime} (w : world) (txt : pystr) (st : bridge) :
  let r := _process_clipboard_text w txt st in
  outcome_of r = Ok tt /\
  state_of r = st /\
  (length (List.filter is_document_call (trace_of r)) <= 1)%nat /\
  (w_uno w = UnoDone -> trace_of r = [Process txt; document_call txt]) /\
  (w_uno w = UnoAbsent -> trace_of r = [Process txt]) /\
  (forall e, w_uno w = UnoRaises e -> trace_of r = [Process txt; PrintExc]) /\
  (forall e, w_uno w = UnoRaisesAfter e ->
     trace_of r = [Process txt; document_call txt; PrintExc]).
Proof.
  intros r. subst r. rewrite process_clipboard_text_trace.
  unfold outcome_of, state_of, trace_of. simpl.
  split; [reflexivity|]. split; [reflexivity|]. split; [|repeat split].
  - destruct (w_uno w); simpl; try lia;
      destruct (is_document_call (document_call txt)); simpl; lia.
  - now intros ->.
  - now intros ->.
  - now intros e ->.
  - now intros e ->.
Qed.

Lemma process_clipboard_text_contained_witness :
  trace_of (@_process_clipboard_text ascii_runtime (sample_world 8 "Comma" UnoDone)
              (lit "Comma") idle_bridge)
  = [Process (lit "Comma"); InsertString (lit ",")] /\
  trace_of (@_process_clipboard_text ascii_runtime
              {| w_clipboard := clip 8 "Comma"; w_uno := UnoRaisesAfter RuntimeError |}
              (lit "Comma") idle_bridge)
  = [Process (lit "Comma"); InsertString (lit ","); PrintExc].
Proof.
  split.
  - apply (proj1 (proj2 (proj2 (proj2 (@process_clipboard_text_contained ascii_runtime
             (sample_world 8 "Comma" UnoDone) (lit "Comma") idle_bridge))))).
    reflexivity.
  - apply (proj2 (proj2 (proj2 (proj2 (proj2 (proj2
             (@process_clipboard_text_contained ascii_runtime
                {| w_clipboard := clip 8 "Comma"; w_uno := UnoRaisesAfter RuntimeError |}
                (lit "Comma") idle_bridge)))))) RuntimeError).
    reflexivity.
Defined.

(** X8. Whatever text passes through the clipboard, the monitor loop only
    ever dispatches commands that are values of the action table, all of
    them [.uno:] URLs: clipboard text never becomes a command URL. *)
Theorem dispatched_commands_are_table_values `{Runtime}
    (ws : list world) (st : bridge) (cmd : pystr) :
  ExecuteDispatch cmd ∈ trace_of (_monitor_loop ws st) ->
  (exists k, ACTION_COMMANDS !! k = Some cmd) /\ take 5 cmd = lit ".uno:".
Proof.
  intros Hin.
  assert (Hk : exists k, ACTION_COMMANDS !! k = Some cmd).
  { rewrite monitor_loop_run in Hin.
    destruct (poll_sec (config st)) as [sec|e].
    2:{ now apply elem_of_nil in Hin. }
    pose proof (monitor_while_trace_Forall
                  (fun e => forall c, e = ExecuteDispatch c ->
                                      exists k, ACTION_COMMANDS !! k = Some c)
                  sec ws st) as Hall.
    rewrite Forall_forall in Hall.
    apply (Hall ltac:(discriminate)
                ltac:(intros txt c; unfold document_call;
                      destruct (process_voice_commands txt) as [[] r] eqn:Hc;
                      try discriminate; intros [= <-];
                      eauto using action_from_table)
                ltac:(discriminate) ltac:(discriminate) _ Hin cmd eq_refl). }
  split; [assumption|].
  destruct Hk as [k Hk]. now apply (action_values_are_uno_urls k).
Qed.

Lemma dispatched_commands_are_table_values_witness :
  (exists k, ACTION_COMMANDS !! k = Some (lit ".uno:Bold")) /\
  take 5 (lit ".uno:Bold") = lit ".uno:".
Proof.
  apply (@dispatched_commands_are_table_values ascii_runtime
           [sample_world 8 " BOLD that" UnoDone] idle_bridge (lit ".uno:Bold")).
  apply list_elem_of_In. vm_compute. auto.
Defined.

(** ** Whole runs of the monitor loop *)

Lemma state_of_triple {S A} (s : S) (t : list event) (r : result A) :
  state_of (s, t, r) = s.
Proof. reflexivity. Qed.

Lemma trace_of_triple {S A} (s : S) (t : list event) (r : result A) :
  trace_of (s, t, r) = t.
Proof. reflexivity. Qed.

Lemma outcome_of_triple {S A} (s : S) (t : list event) (r : result A) :
  outcome_of (s, t, r) = r.
Proof. reflexivity. Qed.

Section Runs.
Context `{rt : Runtime}.

Lemma monitor_try_thread w st : thread (state_of (monitor_try w st)) = thread st.
Proof.
  destruct (monitor_try_cases w st)
    as [(e & _ & ->) | [(_ & ->) | (n & _ & _ &
          [(e & _ & ->) | [(txt & _ & _ & ->) | (txt & t & _ & _ & _ & -> & _)]])]];
    reflexivity.
Qed.

Lemma sleeps_of_try w st : List.filter is_sleep (trace_of (monitor_try w st)) = [].
Proof.
  destruct (monitor_try_cases w st)
    as [(e & _ & ->) | [(_ & ->) | (n & Hs & Hn &
          [(e & _ & ->) | [(txt & _ & _ & ->) | (txt & t & Ht & He & Hl & _ & _)]])]];
    try reflexivity.
  rewrite (monitor_try_new_text_trace w st n txt Hs Hn Ht He Hl).
  unfold trace_of, document_call. simpl.
  destruct (process_voice_commands txt) as [[] r]; destruct (w_uno w); reflexivity.
Qed.

Lemma sleeps_of_iteration sec w st :
  List.filter is_sleep (trace_of (monitor_iteration sec w st)) = [Sleep sec].
Proof.
  rewrite monitor_iteration_run. unfold trace_of at 1. simpl.
  rewrite !List.filter_app, sleeps_of_try.
  now destruct (outcome_of (monitor_try w st)).
Qed.

Lemma monitor_iteration_fields sec w st :
  running (state_of (monitor_iteration sec w st)) = running st /\
  thread (state_of (monitor_iteration sec w st)) = thread st /\
  config (state_of (monitor_iteration sec w st)) = config st.
Proof.
  rewrite monitor_iteration_run, state_of_triple.
  auto using monitor_try_running, monitor_try_thread, monitor_try_config.
Qed.

Lemma monitor_while_fields sec ws st :
  running (state_of (monitor_while sec ws st)) = running st /\
  thread (state_of (monitor_while sec ws st)) = thread st /\
  config (state_of (monitor_while sec ws st)) = config st.
Proof.
  revert st. induction ws as [|w ws IH]; intros st.
  - destruct (running st) eqn:Hr.
    + now rewrite monitor_while_idle.
    + now rewrite monitor_while_stopped.
  - destruct (running st) eqn:Hr.
    2:{ now rewrite monitor_while_stopped. }
    destruct (monitor_iteration_fields sec w st) as (H1 & H2 & H3).
    destruct (sleep_result sec) as [[]|esl] eqn:Hsec.
    + rewrite monitor_while_step, state_of_triple by assumption.
      destruct (IH (state_of (monitor_iteration sec w st))) as (I1 & I2 & I3).
      rewrite I1, I2, I3. rewrite Hr in H1. auto.
    + rewrite (monitor_while_dies _ _ _ _ esl), state_of_triple by assumption.
      rewrite Hr in H1. auto.
Qed.

End Runs.

(** X9. While [running] holds and the interval is one [time.sleep] takes
    (not negative, and within its range), the loop comes through any
    sequence of passes, failed reads and failed UNO calls included: it is
    still polling afterwards and has slept once per pass, for the same
    interval each time. *)
Theorem loop_keeps_polling `{Runtime} (sec : Q) (ws : list world) (st : bridge) :
  running st = true -> sleep_result sec = Ok tt ->
  outcome_of (monitor_while sec ws st) = Ok Polling /\
  List.filter is_sleep (trace_of (monitor_while sec ws st)) = repeat (Sleep sec) (length ws).
Proof.
  intros Hr Hsec. revert st Hr. induction ws as [|w ws IH]; intros st Hr.
  - now rewrite monitor_while_idle.
  - rewrite monitor_while_step, outcome_of_triple, trace_of_triple by assumption.
    destruct (IH (state_of (monitor_iteration sec w st))) as (Ho & Hs).
    { destruct (monitor_iteration_fields sec w st) as (H1 & _). congruence. }
    split; [assumption|].
    now rewrite List.filter_app, sleeps_of_iteration, Hs.
Qed.

Lemma loop_keeps_polling_witness :
  outcome_of (@monitor_while ascii_runtime (3 # 10)
                [locked_world; locked_world; sample_world 9 "dash" (UnoRaises OSError)]
                idle_bridge) = Ok Polling /\
  List.filter is_sleep
    (trace_of (@monitor_while ascii_runtime (3 # 10)
                 [locked_world; locked_world; sample_world 9 "dash" (UnoRaises OSError)]
                 idle_bridge))
  = [Sleep (3 # 10); Sleep (3 # 10); Sleep (3 # 10)].
Proof.
  apply (@loop_keeps_polling ascii_runtime (3 # 10)
           [locked_world; locked_world; sample_world 9 "dash" (UnoRaises OSError)]
           idle_bridge); reflexivity.
Defined.

(** X10. The monitor loop writes [last_seq] and [last_text] only: it never
    changes [running], [thread] or the settings, and it makes no call other
    than processing a text, the document call that follows, printing a
    traceback and sleeping: it never spawns, joins or notifies. *)
Theorem loop_is_confined `{Runtime} (ws : list world) (st : bridge) :
  running (state_of (_monitor_loop ws st)) = running st /\
  thread (state_of (_monitor_loop ws st)) = thread st /\
  config (state_of (_monitor_loop ws st)) = config st /\
  Forall (fun e => is_monitor_event e = true) (trace_of (_monitor_loop ws st)).
Proof.
  rewrite monitor_loop_run.
  destruct (poll_sec (config st)) as [sec|e].
  - destruct (monitor_while_fields sec ws st) as (H1 & H2 & H3).
    repeat split; try assumption.
    apply monitor_while_trace_Forall; try reflexivity.
    intros txt. unfold document_call.
    now destruct (process_voice_commands txt) as [[] r].
  - repeat split. apply Forall_nil. exact I.
Qed.

Lemma sleep_result_negative (z : Z) :
  (z < 0)%Z ->
  sleep_result (z # 1000) =
  Raise (if sleep_in_range (z # 1000) then ValueError else OverflowError).
Proof.
  intros Hz. unfold sleep_result.
  destruct (sleep_in_range (z # 1000)); [|reflexivity].
  assert (Hneg : Qle_bool 0 (z # 1000) = false).
  { apply not_true_is_false. intros Hle. apply Qle_bool_iff in Hle.
    unfold Qle in Hle. simpl in Hle. lia. }
  now rewrite Hneg.
Qed.

(** X11. A negative integer [poll_interval_ms] that converts to a [float]
    ends the monitor thread: the first pass is made, its sleep raises
    outside the [try] ([ValueError], or [OverflowError] when the length is
    beyond the range of [time.sleep]), and no further pass follows, while
    [running] stays true. *)
Theorem negative_interval_ends_loop `{Runtime}
    (z : Z) (w : world) (ws : list world) (st : bridge) :
  config st !! poll_interval_ms = Some (JInt z) -> (z < 0)%Z ->
  int_fits_float z = true ->
  running st = true ->
  outcome_of (_monitor_loop (w :: ws) st) =
    Raise (if sleep_in_range (z # 1000) then ValueError else OverflowError) /\
  trace_of (_monitor_loop (w :: ws) st) = trace_of (monitor_iteration (z # 1000) w st) /\
  List.filter is_sleep (trace_of (_monitor_loop (w :: ws) st)) = [Sleep (z # 1000)] /\
  running (state_of (_monitor_loop (w :: ws) st)) = true.
Proof.
  intros Hc Hz Hfit Hr.
  assert (Hp : poll_sec (config st) = Ok (z # 1000)).
  { unfold poll_sec. rewrite Hc. simpl. now rewrite Hfit. }
  rewrite monitor_loop_run, Hp.
  rewrite (monitor_while_dies _ _ _ _ _ Hr (sleep_result_negative z Hz)).
  rewrite outcome_of_triple, trace_of_triple, state_of_triple.
  split; [reflexivity|]. split; [reflexivity|].
  split; [apply sleeps_of_iteration|].
  destruct (monitor_iteration_fields (z # 1000) w st) as (H1 & _). congruence.
Qed.

Lemma negative_interval_ends_loop_witness :
  outcome_of (@_monitor_loop ascii_runtime
                [sample_world 8 "period" UnoDone; sample_world 9 "comma" UnoDone]
                (set_config (<[poll_interval_ms := JInt (-5)]> defaults) idle_bridge))
  = Raise ValueError.
Proof.
  apply (@negative_interval_ends_loop ascii_runtime (-5)
           (sample_world 8 "period" UnoDone) [sample_world 9 "comma" UnoDone]
           (set_config (<[poll_interval_ms := JInt (-5)]> defaults) idle_bridge)).
  - vm_compute. reflexivity.
  - reflexivity.
  - vm_compute. reflexivity.
  - reflexivity.
Defined.

(** X12. A [poll_interval_ms] that is no number (a string, null, a list, an
    object) ends the monitor thread before its first pass: computing the
    interval raises [TypeError] and nothing else happens. *)
Theorem non_numeric_interval_ends_loop `{Runtime}
    (v : json) (ws : list world) (st : bridge) :
  config st !! poll_interval_ms = Some v -> is_number v = false ->
  _monitor_loop ws st = (st, [], Raise TypeError).
Proof.
  intros Hc Hv.
  assert (Hp : poll_sec (config st) = Raise TypeError).
  { unfold poll_sec. rewrite Hc. destruct v; try discriminate; reflexivity. }
  now rewrite monitor_loop_run, Hp.
Qed.

Lemma non_numeric_interval_ends_loop_witness :
  @_monitor_loop ascii_runtime [sample_world 8 "period" UnoDone]
    (set_config (<[poll_interval_ms := JStr (lit "300")]> defaults) idle_bridge)
  = (set_config (<[poll_interval_ms := JStr (lit "300")]> defaults) idle_bridge,
     [], Raise TypeError).
Proof.
  apply (@non_numeric_interval_ends_loop ascii_runtime (JStr (lit "300"))).
  - vm_compute. reflexivity.
  - reflexivity.
Defined.

(** ** What the loop remembers *)

Section Remembered.
Context `{rt : Runtime}.

(** A pass dispatches nothing when the sequence number is the remembered
    one or the text read is the remembered one. *)
Lemma no_dispatch_when_remembered sec w st :
  get_clipboard_seq (w_clipboard w) = Ok (last_seq st) \/
  get_clipboard_text (w_clipboard w) = Ok (last_text st) ->
  dispatches (trace_of (monitor_iteration sec w st)) = [].
Proof.
  intros Hrem. rewrite dispatches_iteration.
  destruct (monitor_try_cases w st)
    as [(e & _ & ->) | [(_ & ->) | (n & Hs & Hn &
          [(e & _ & ->) | [(txt & _ & _ & ->) | (txt & t & Ht & He & Hl & _ & _)]])]];
    try reflexivity.
  destruct Hrem as [Hrem|Hrem]; congruence.
Qed.

Lemma monitor_iteration_state sec w st :
  state_of (monitor_iteration sec w st) = state_of (monitor_try w st).
Proof. now rewrite monitor_iteration_run. Qed.

End Remembered.

Section Held.
Context `{rt : Runtime}.

Lemma pass_keeps_text sec w st :
  get_clipboard_text (w_clipboard w) = Ok (last_text st) ->
  last_text (state_of (monitor_iteration sec w st)) = last_text st.
Proof.
  intros Ht. rewrite monitor_iteration_state.
  destruct (monitor_try_cases w st)
    as [(e & _ & ->) | [(_ & ->) | (n & Hs & Hn &
          [(e & _ & ->) | [(txt & _ & _ & ->) | (txt & t & Ht' & He & Hl & _ & _)]])]];
    try reflexivity.
  congruence.
Qed.

(** For as long as the clipboard holds the remembered text, nothing is
    dispatched, whatever the sequence numbers. *)
Lemma no_dispatch_while_text_held sec ws :
  forall st,
    Forall (fun w => get_clipboard_text (w_clipboard w) = Ok (last_text st)) ws ->
    dispatches (trace_of (monitor_while sec ws st)) = [].
Proof.
  induction ws as [|w ws IH]; intros st Hall.
  - destruct (running st) eqn:Hr.
    + now rewrite monitor_while_idle.
    + now rewrite monitor_while_stopped.
  - apply Forall_cons in Hall as [Hw Hall].
    destruct (running st) eqn:Hr.
    2:{ now rewrite monitor_while_stopped. }
    assert (Hnone : dispatches (trace_of (monitor_iteration sec w st)) = [])
      by (apply no_dispatch_when_remembered; now right).
    destruct (sleep_result sec) as [[]|esl] eqn:Hsec.
    + rewrite monitor_while_step, trace_of_triple, dispatches_app, Hnone by assumption.
      apply IH. now rewrite pass_keeps_text.
    + now rewrite (monitor_while_dies _ _ _ _ esl), trace_of_triple by assumption.
Qed.

(** For as long as the sequence number is the remembered one, nothing is
    dispatched. *)
Lemma no_dispatch_while_seq_held sec ws :
  forall st,
    Forall (fun w => get_clipboard_seq (w_clipboard w) = Ok (last_seq st)) ws ->
    dispatches (trace_of (monitor_while sec ws st)) = [].
Proof.
  induction ws as [|w ws IH]; intros st Hall.
  - destruct (running st) eqn:Hr.
    + now rewrite monitor_while_idle.
    + now rewrite monitor_while_stopped.
  - apply Forall_cons in Hall as [Hw Hall].
    destruct (running st) eqn:Hr.
    2:{ now rewrite monitor_while_stopped. }
    assert (Hnone : dispatches (trace_of (monitor_iteration sec w st)) = [])
      by (apply no_dispatch_when_remembered; now left).
    assert (Hst : state_of (monitor_iteration sec w st) = st)
      by now rewrite monitor_iteration_state, (monitor_try_unchanged w st Hw).
    destruct (sleep_result sec) as [[]|esl] eqn:Hsec.
    + rewrite monitor_while_step, trace_of_triple, dispatches_app, Hnone by assumption.
      rewrite Hst. now apply IH.
    + now rewrite (monitor_while_dies _ _ _ _ esl), trace_of_triple by assumption.
Qed.

End Held.

(** X13. A clipboard change whose text cannot be read is lost: the pass
    records the new sequence number before it reads the text, so a later
    pass that finds the same number dispatches nothing, readable text or
    not. *)
Theorem failed_text_read_loses_change `{Runtime}
    (sec : Q) (w1 w2 : world) (st : bridge) (n : N) (e : exn) :
  get_clipboard_seq (w_clipboard w1) = Ok n -> n <> last_seq st ->
  get_clipboard_text (w_clipboard w1) = Raise e ->
  get_clipboard_seq (w_clipboard w2) = Ok n ->
  let st1 := state_of (monitor_iteration sec w1 st) in
  last_seq st1 = n /\ last_text st1 = last_text st /\
  dispatches (trace_of (monitor_iteration sec w1 st)) = [] /\
  dispatches (trace_of (monitor_iteration sec w2 st1)) = [].
Proof.
  intros Hs Hn Ht Hs2 st1. subst st1.
  rewrite monitor_iteration_state, dispatches_iteration.
  rewrite (monitor_try_text_raises w1 st n e Hs Hn Ht), state_of_triple.
  repeat split.
  apply no_dispatch_when_remembered. now left.
Qed.

Lemma failed_text_read_loses_change_witness :
  dispatches (trace_of (@monitor_iteration ascii_runtime (3 # 10)
    (sample_world 8 "period" UnoDone)
    (state_of (@monitor_iteration ascii_runtime (3 # 10)
       {| w_clipboard := {| cb_seq := Ok 8; cb_open := true; cb_handle := true;
                            cb_lock := true; cb_wstring := Raise OSError |};
          w_uno := UnoDone |} idle_bridge)))) = [].
Proof.
  apply (@failed_text_read_loses_change ascii_runtime (3 # 10)
           {| w_clipboard := {| cb_seq := Ok 8; cb_open := true; cb_handle := true;
                                cb_lock := true; cb_wstring := Raise OSError |};
              w_uno := UnoDone |}
           (sample_world 8 "period" UnoDone) idle_bridge 8 OSError).
  - reflexivity.
  - vm_compute. discriminate.
  - reflexivity.
  - reflexivity.
Defined.

(** X14. After a pass has dispatched [txt], the passes that follow dispatch
    nothing for as long as the clipboard holds [txt], also under new
    sequence numbers: the text read is compared with the last text
    dispatched, and with that one only. *)
Theorem repeated_text_not_dispatched `{Runtime}
    (sec : Q) (w1 : world) (ws : list world) (st : bridge) (n : N) (txt : pystr) :
  get_clipboard_seq (w_clipboard w1) = Ok n -> n <> last_seq st ->
  get_clipboard_text (w_clipboard w1) = Ok txt ->
  txt <> [] -> txt <> last_text st ->
  Forall (fun w => get_clipboard_text (w_clipboard w) = Ok txt) ws ->
  let st1 := state_of (monitor_iteration sec w1 st) in
  (Process txt ∈ trace_of (monitor_iteration sec w1 st)) /\
  last_text st1 = txt /\
  dispatches (trace_of (monitor_while sec ws st1)) = [].
Proof.
  intros Hs Hn Ht He Hl Hall st1. subst st1.
  rewrite monitor_iteration_state.
  pose proof (monitor_try_new_text_trace w1 st n txt Hs Hn Ht He Hl) as Hrun.
  split; [|split].
  - apply process_in_iteration. rewrite Hrun, trace_of_triple.
    apply elem_of_cons. now left.
  - now rewrite Hrun.
  - apply no_dispatch_while_text_held. now rewrite Hrun.
Qed.

Lemma repeated_text_not_dispatched_witness :
  dispatches (trace_of (@monitor_while ascii_runtime (3 # 10)
    [sample_world 9 "period" UnoDone; sample_world 10 "period" UnoDone]
    (state_of (@monitor_iteration ascii_runtime (3 # 10)
                 (sample_world 8 "period" UnoDone) idle_bridge)))) = [].
Proof.
  apply (@repeated_text_not_dispatched ascii_runtime (3 # 10)
           (sample_world 8 "period" UnoDone)
           [sample_world 9 "period" UnoDone; sample_world 10 "period" UnoDone]
           idle_bridge 8 (lit "period")).
  - reflexivity.
  - vm_compute. discriminate.
  - reflexivity.
  - vm_compute. discriminate.
  - vm_compute. discriminate.
  - repeat constructor.
Defined.

(** A text dispatched earlier is dispatched again once another text has
    been dispatched in between. *)
Example period_comma_period :
  dispatches (trace_of (@monitor_while ascii_runtime (3 # 10)
    [sample_world 8 "period" UnoDone; sample_world 9 "comma" UnoDone;
     sample_world 10 "period" UnoDone] idle_bridge))
  = [Process (lit "period"); InsertString (lit ".");
     Process (lit "comma"); InsertString (lit ",");
     Process (lit "period"); InsertString (lit ".")].
Proof. vm_compute. reflexivity. Qed.

(** ** Starting, stopping and toggling *)

(** X15. What is on the clipboard when monitoring starts is not inserted:
    after a [start] that read sequence number [n] and text [txt], the
    passes dispatch nothing for as long as they find the number [n], and
    nothing for as long as they find the text [txt], whatever the
    numbers. *)
Theorem start_takes_baseline `{Runtime}
    (sec : Q) (w : world) (ws : list world) (st : bridge) (n : N) (txt : pystr) :
  running st = false ->
  get_clipboard_seq (w_clipboard w) = Ok n ->
  get_clipboard_text (w_clipboard w) = Ok txt ->
  (Forall (fun w' => get_clipboard_seq (w_clipboard w') = Ok n) ws ->
   dispatches (trace_of (monitor_while sec ws (state_of (start w st)))) = []) /\
  (Forall (fun w' => get_clipboard_text (w_clipboard w') = Ok txt) ws ->
   dispatches (trace_of (monitor_while sec ws (state_of (start w st)))) = []).
Proof.
  intros Hr Hs Ht.
  rewrite (start_stopped w st n txt Hr Hs Ht), state_of_triple.
  split; intros Hall.
  - now apply no_dispatch_while_seq_held.
  - now apply no_dispatch_while_text_held.
Qed.

Lemma start_takes_baseline_witness :
  dispatches (trace_of (@monitor_while ascii_runtime (3 # 10)
    [sample_world 9 "bold that" UnoDone; sample_world 10 "bold that" UnoDone]
    (state_of (start (sample_world 8 "bold that" UnoDone) stopped_bridge)))) = [].
Proof.
  apply (proj2 (@start_takes_baseline ascii_runtime (3 # 10)
           (sample_world 8 "bold that" UnoDone)
           [sample_world 9 "bold that" UnoDone; sample_world 10 "bold that" UnoDone]
           stopped_bridge 8 (lit "bold that") eq_refl eq_refl eq_refl)).
  repeat constructor.
Defined.

(** X16. A [start] that fails while reading the clipboard has already set
    [running]: it raises with no thread spawned and no notification, the
    bridge is left marked as running, and a further [start] does nothing. *)
Theorem failed_start_leaves_running (w w' : world) (st : bridge) (e : exn) :
  running st = false ->
  outcome_of (start w st) = Raise e ->
  running (state_of (start w st)) = true /\
  thread (state_of (start w st)) = thread st /\
  trace_of (start w st) = [] /\
  start w' (state_of (start w st)) = (state_of (start w st), [], Ok tt).
Proof.
  intros Hr Hout.
  assert (Hrun : running (state_of (start w st)) = true) by apply start_sets_running.
  split; [assumption|]. split; [|split; [|now apply start_running]].
  - revert Hout. unfold start. unfold_M. rewrite Hr.
    destruct (get_clipboard_seq (w_clipboard w)); simpl; [|reflexivity].
    destruct (get_clipboard_text (w_clipboard w)); simpl; [|reflexivity].
    rewrite notify_run. discriminate.
  - revert Hout. unfold start. unfold_M. rewrite Hr.
    destruct (get_clipboard_seq (w_clipboard w)); simpl; [|reflexivity].
    destruct (get_clipboard_text (w_clipboard w)); simpl; [|reflexivity].
    rewrite notify_run. discriminate.
Qed.

Lemma failed_start_leaves_running_witness :
  running (state_of (start locked_world stopped_bridge)) = true /\
  thread (state_of (start locked_world stopped_bridge)) = None /\
  trace_of (start locked_world stopped_bridge) = [].
Proof.
  destruct (failed_start_leaves_running locked_world locked_world stopped_bridge OSError
              eq_refl eq_refl) as (H1 & H2 & H3 & _).
  split; [exact H1|]. split; [exact H2 | exact H3].
Defined.

(** X17. [start] followed by [stop], on a stopped bridge with a readable
    clipboard: the thread is spawned once and joined once, each call is
    notified, and the bridge ends stopped with no thread, its settings
    untouched and the clipboard of the start as baseline. *)
Theorem start_then_stop (w w' : world) (st : bridge) (n : N) (txt : pystr) :
  running st = false ->
  get_clipboard_seq (w_clipboard w) = Ok n ->
  get_clipboard_text (w_clipboard w) = Ok txt ->
  state_of (stop w' (state_of (start w st))) =
    {| running := false; thread := None; config := config st;
       last_seq := n; last_text := txt |} /\
  List.filter is_thread_call
    (trace_of (start w st) ++ trace_of (stop w' (state_of (start w st))))
  = [Spawn; Join] /\
  (Notify started_message ∈ trace_of (start w st)) /\
  (Notify stopped_message ∈ trace_of (stop w' (state_of (start w st)))).
Proof.
  intros Hr Hs Ht.
  rewrite (start_stopped w st n txt Hr Hs Ht), stop_run.
  rewrite !state_of_triple, !trace_of_triple. simpl.
  split; [reflexivity|]. split; [|split].
  - destruct (w_uno w), (w_uno w'); reflexivity.
  - apply elem_of_cons. right. apply elem_of_cons. now left.
  - apply elem_of_cons. right. apply elem_of_cons. now left.
Qed.

Lemma start_then_stop_witness :
  state_of (stop (sample_world 9 "x" UnoAbsent)
              (state_of (start (sample_world 8 "period" UnoDone) stopped_bridge)))
  = {| running := false; thread := None; config := defaults;
       last_seq := 8; last_text := lit "period" |}.
Proof.
  apply (start_then_stop (sample_world 8 "period" UnoDone) (sample_world 9 "x" UnoAbsent)
           stopped_bridge 8 (lit "period")); reflexivity.
Defined.

(** X18. The toggle command always flips [running]: on an existing bridge
    the flag after the call is the negation of the flag before, whether
    the call returns or raises; on first use, once the bridge is built,
    the flag is set. *)
Theorem toggle_flips_running
    (f : settings_file) (cb : clipboard) (w : world) (b : bridge) :
  (exists b', state_of (ToggleBridge_trigger f cb w (Some b)) = Some b' /\
              running b' = negb (running b)) /\
  (init f cb = Ok b ->
   exists b', state_of (ToggleBridge_trigger f cb w None) = Some b' /\
              running b' = true).
Proof.
  assert (Hflip : forall b0, exists b',
             state_of (let '(b', t, r) :=
                         (if is_running b0 then stop w b0 else start w b0) in
                       (Some b', t, r)) = Some b' /\
             running b' = negb (running b0)).
  { intros b0. unfold is_running. destruct (running b0) eqn:Hr.
    - rewrite stop_run. eexists. split; reflexivity.
    - pose proof (start_sets_running w b0) as Hs.
      destruct (start w b0) as [[b' t] r]. exists b'. split; [reflexivity|].
      exact Hs. }
  split.
  - unfold ToggleBridge_trigger. simpl. apply Hflip.
  - intros Hinit. unfold ToggleBridge_trigger, get_bridge. rewrite Hinit.
    destruct (Hflip b) as (b' & Hst & Hrun). exists b'. split; [exact Hst|].
    rewrite Hrun.
    unfold init in Hinit. destruct (load_config f); [|discriminate].
    destruct (get_clipboard_seq cb); [|discriminate].
    destruct (get_clipboard_text cb); [|discriminate].
    now injection Hinit as <-.
Qed.

Lemma toggle_flips_running_witness :
  exists b', state_of (ToggleBridge_trigger Missing (clip 7 "hello")
                         (sample_world 7 "hello" UnoDone) None) = Some b' /\
             running b' = true.
Proof.
  apply (proj2 (toggle_flips_running Missing (clip 7 "hello")
                  (sample_world 7 "hello" UnoDone) stopped_bridge)).
  reflexivity.
Defined.

(** X19. The bridge is built at most once: after a call of [get_bridge]
    that built it, a later call returns that same bridge whatever the
    settings file and the clipboard have become; a construction that
    raises leaves the module variable unset, so the next call tries
    again. *)
Theorem bridge_built_once
    (f f' : settings_file) (cb cb' : clipboard) :
  (forall b, init f cb = Ok b ->
     get_bridge f cb None = (Some b, Ok b) /\
     get_bridge f' cb' (get_bridge f cb None).1 = (Some b, Ok b)) /\
  (forall e, init f cb = Raise e ->
     get_bridge f cb None = (None, Raise e) /\
     get_bridge f' cb' (get_bridge f cb None).1 = get_bridge f' cb' None).
Proof.
  split.
  - intros b Hb. unfold get_bridge at 1 3. rewrite Hb. split; reflexivity.
  - intros e He. unfold get_bridge at 1 3. rewrite He. split; reflexivity.
Qed.

Lemma bridge_built_once_witness :
  get_bridge (Undecodable ValueError) (clip 9 "other")
    (get_bridge Missing (clip 7 "hello") None).1
  = (Some stopped_bridge, Ok stopped_bridge).
Proof.
  apply (proj1 (bridge_built_once Missing (Undecodable ValueError)
                  (clip 7 "hello") (clip 9 "other")) stopped_bridge).
  reflexivity.
Defined.

(** ** Settings *)

Lemma dict_setitem_keeps (d : dict) (a b : json) (d' : dict) (k : pystr) :
  dict_setitem d a b = Ok d' -> is_Some (d !! k) -> is_Some (d' !! k).
Proof.
  destruct a; simpl; intros [= <-] Hk; try exact Hk.
  destruct (decide (s = k)) as [->|Hne].
  - rewrite lookup_insert_eq. eauto.
  - now rewrite lookup_insert_ne.
Qed.

Lemma update_from_pairs_keeps items :
  forall (d : dict) (k : pystr),
    is_Some (d !! k) -> is_Some (state_of (update_from_pairs items d) !! k).
Proof.
  induction items as [|item items IH]; intros d k Hk; simpl.
  - exact Hk.
  - unfold_M.
    destruct (pair_elements item) as [[|a [|b [|c l]]]|e]; simpl; try exact Hk.
    destruct (dict_setitem d a b) as [d'|e] eqn:Hset; simpl; [|exact Hk].
    specialize (IH d' k (dict_setitem_keeps d a b d' k Hset Hk)).
    destruct (update_from_pairs items d') as [[s t] r]. exact IH.
Qed.

Lemma dict_update_keeps (other : json) (d : dict) (k : pystr) :
  is_Some (d !! k) -> is_Some (state_of (dict_update other d) !! k).
Proof.
  intros Hk. destruct other; simpl; try exact Hk.
  - now apply update_from_pairs_keeps.
  - now apply update_from_pairs_keeps.
  - unfold modify, state_of. simpl. rewrite lookup_members.
    destruct (dict_display members !! k); eauto.
Qed.

(** X20. Whatever the settings file holds, the dictionary [load_config]
    returns has every default key: entries are only added or replaced,
    never removed, so [poll_interval_ms], [auto_space] and
    [show_notifications] are always present. *)
Theorem load_config_has_default_keys (f : settings_file) :
  exists d, load_config f = Ok d /\
    (forall k, is_Some (defaults !! k) -> is_Some (d !! k)) /\
    is_Some (d !! poll_interval_ms) /\
    is_Some (d !! auto_space) /\
    is_Some (d !! show_notifications).
Proof.
  rewrite load_config_returns. eexists. split; [reflexivity|].
  assert (Hkeep : forall k, is_Some (defaults !! k) ->
                            is_Some (state_of (load_config_body f defaults) !! k)).
  { intros k Hk. destruct f; simpl; try exact Hk. now apply dict_update_keeps. }
  split; [exact Hkeep|].
  destruct defaults_entries as (H1 & H2 & H3 & _).
  repeat split; apply Hkeep; eauto.
Qed.

(** X21. A missing or corrupt settings file never prevents the bridge from
    being built: with a readable clipboard the constructor succeeds for
    every state of the file, giving a stopped bridge with the loaded
    settings and the clipboard as baseline; it raises only when a
    clipboard read does. *)
Theorem bridge_built_despite_file (f : settings_file) (cb : clipboard) :
  (forall n txt,
     get_clipboard_seq cb = Ok n -> get_clipboard_text cb = Ok txt ->
     exists d, load_config f = Ok d /\
       init f cb = Ok {| running := false; thread := None; config := d;
                         last_seq := n; last_text := txt |}) /\
  (forall e, init f cb = Raise e ->
     get_clipboard_seq cb = Raise e \/ get_clipboard_text cb = Raise e).
Proof.
  pose proof (load_config_returns f) as Hd.
  set (d := state_of (load_config_body f defaults)) in Hd.
  split.
  - intros n txt Hs Ht. exists d. split; [assumption|].
    unfold init. now rewrite Hd, Hs, Ht.
  - intros e. unfold init. rewrite Hd.
    destruct (get_clipboard_seq cb); [|intros [= ->]; now left].
    destruct (get_clipboard_text cb); [discriminate|intros [= ->]; now right].
Qed.

Lemma bridge_built_despite_file_witness :
  exists d, load_config (Undecodable ValueError) = Ok d /\
    init (Undecodable ValueError) (clip 7 "hello")
    = Ok {| running := false; thread := None; config := d;
            last_seq := 7; last_text := lit "hello" |}.
Proof.
  apply (proj1 (bridge_built_despite_file (Undecodable ValueError) (clip 7 "hello"))
           7 (lit "hello")); reflexivity.
Defined.

(** ** Reading the clipboard *)

(** X22. [get_clipboard_text] releases what it takes: [CloseClipboard] is
    called exactly when [OpenClipboard] succeeded, and then as the last
    call; [GlobalUnlock] is called exactly when [GlobalLock] succeeded;
    both also when reading the string raises. Whenever a step before the
    read fails the result is the empty string, not an exception. *)
Theorem clipboard_always_released (cb : clipboard) :
  let r := get_clipboard_text_calls cb in
  r.2 = get_clipboard_text cb /\
  count_occ api_call_eq_dec r.1 CloseClipboard = (if cb_open cb then 1 else 0)%nat /\
  (cb_open cb = true -> last r.1 = Some CloseClipboard) /\
  count_occ api_call_eq_dec r.1 GlobalUnlock
    = (if cb_open cb && cb_handle cb && cb_lock cb then 1 else 0)%nat /\
  count_occ api_call_eq_dec r.1 GlobalLock
    = (if cb_open cb && cb_handle cb then 1 else 0)%nat /\
  (cb_open cb && cb_handle cb && cb_lock cb = false -> r.2 = Ok []).
Proof.
  unfold get_clipboard_text_calls, get_clipboard_text.
  destruct (cb_open cb), (cb_handle cb), (cb_lock cb); simpl;
    repeat split; try reflexivity; discriminate.
Qed.

Lemma clipboard_always_released_witness :
  last (get_clipboard_text_calls (w_clipboard locked_world)).1 = Some CloseClipboard /\
  (get_clipboard_text_calls
     {| cb_seq := Ok 3; cb_open := true; cb_handle := false; cb_lock := false;
        cb_wstring := Raise OSError |}).2 = Ok [].
Proof.
  split.
  - apply (proj1 (proj2 (proj2 (clipboard_always_released (w_clipboard locked_world))))).
    reflexivity.
  - apply (proj2 (proj2 (proj2 (proj2 (proj2 (clipboard_always_released
             {| cb_seq := Ok 3; cb_open := true; cb_handle := false; cb_lock := false;
                cb_wstring := Raise OSError |})))))).
    reflexivity.
Defined.

(** ** The settings dialog *)

Lemma save_config_run (sw : save_world) (cfg : dict) (last : option dict) :
  save_config sw cfg last =
  (match sw with
   | SavePathFails _ | SaveOpenFails _ => last
   | SaveDumpFails _ | SaveDone => Some cfg
   end, [], Ok tt).
Proof. unfold save_config, save_config_body. unfold_M. now destruct sw. Qed.

(** X23. Closing the settings dialog without OK changes nothing: the
    bridge, if there is one, is left as it is, nothing is handed to
    [json.dump], and the command returns normally, also when building or
    disposing of the dialog raises. *)
Theorem settings_cancel_changes_nothing
    (f f' : settings_file) (dlg : dialog) (sw : save_world) (cb : clipboard) (o : office) :
  (forall res, dlg_execute dlg = Ok res -> res <> 1%Z ->
     state_of (SettingsDialog_trigger f dlg sw f' cb o) = o /\
     outcome_of (SettingsDialog_trigger f dlg sw f' cb o) = Ok tt) /\
  (forall e, dlg_execute dlg = Raise e ->
     SettingsDialog_trigger f dlg sw f' cb o = (o, [PrintExc], Ok tt)).
Proof.
  pose proof (load_config_returns f) as Hd.
  split.
  - intros res Hres Hne. apply Z.eqb_neq in Hne.
    unfold SettingsDialog_trigger, _open_settings. unfold_M.
    rewrite Hd, Hres. simpl. rewrite Hne. simpl.
    destruct (dlg_dispose dlg) as [[]|e]; split; reflexivity.
  - intros e He.
    unfold SettingsDialog_trigger, _open_settings. unfold_M.
    rewrite Hd, He. reflexivity.
Qed.

Lemma settings_cancel_changes_nothing_witness :
  state_of (SettingsDialog_trigger Missing cancelled_dialog SaveDone Missing
              (clip 7 "hello") sample_office) = sample_office /\
  outcome_of (SettingsDialog_trigger Missing cancelled_dialog SaveDone Missing
                (clip 7 "hello") sample_office) = Ok tt.
Proof.
  apply (proj1 (settings_cancel_changes_nothing Missing Missing cancelled_dialog SaveDone
                  (clip 7 "hello") sample_office) 0%Z).
  - reflexivity.
  - discriminate.
Defined.

(** X24. Confirming the settings dialog gives the existing bridge the
    settings loaded from the file with the three dialog values stored over
    them: the poll interval truncated to an integer, the two check boxes
    as booleans, every other key of the file kept. The same dictionary is
    handed to [json.dump] when the file can be opened. The bridge keeps its
    [running] flag, thread and baseline, and the command returns
    normally. *)
Theorem settings_ok_replaces_config
    (f f' : settings_file) (dlg : dialog) (sw : save_world) (cb : clipboard)
    (o : office) (b : bridge) (loaded : dict) (poll : Q) (auto ntfy : Z) :
  load_config f = Ok loaded ->
  dlg_execute dlg = Ok 1%Z ->
  dlg_read dlg = Ok (poll, auto, ntfy) ->
  bridge_instance o = Some b ->
  let cfg := <[show_notifications := JBool (ntfy =? 1)%Z]>
               (<[auto_space := JBool (auto =? 1)%Z]>
                  (<[poll_interval_ms := JInt (py_int poll)]> loaded)) in
  let r := SettingsDialog_trigger f dlg sw f' cb o in
  bridge_instance (state_of r) = Some (set_config cfg b) /\
  dumped (state_of r) =
    match sw with
    | SavePathFails _ | SaveOpenFails _ => dumped o
    | SaveDumpFails _ | SaveDone => Some cfg
    end /\
  outcome_of r = Ok tt /\
  cfg !! poll_interval_ms = Some (JInt (py_int poll)) /\
  cfg !! auto_space = Some (JBool (auto =? 1)%Z) /\
  cfg !! show_notifications = Some (JBool (ntfy =? 1)%Z) /\
  (forall k, k <> poll_interval_ms -> k <> auto_space -> k <> show_notifications ->
             cfg !! k = loaded !! k).
Proof.
  intros Hload Hexec Hread Hb cfg r. subst r.
  assert (Hrun : exists t,
    SettingsDialog_trigger f dlg sw f' cb o =
    ({| bridge_instance := Some (set_config cfg b);
        dumped := match sw with
                  | SavePathFails _ | SaveOpenFails _ => dumped o
                  | SaveDumpFails _ | SaveDone => Some cfg
                  end |}, t, Ok tt)).
  { unfold SettingsDialog_trigger, _open_settings, on_dumped, assign_config.
    unfold_M. rewrite Hload, Hexec. simpl. rewrite Hread. simpl.
    pose proof (save_config_run sw cfg (dumped o)) as Hsave.
    unfold_M. fold cfg. rewrite Hsave. simpl. rewrite Hb. simpl.
    destruct (dlg_dispose dlg) as [[]|e]; eexists; reflexivity. }
  destruct Hrun as (t & ->). rewrite state_of_triple, outcome_of_triple. simpl.
  split; [reflexivity|]. split; [reflexivity|]. split; [reflexivity|].
  assert (Hne1 : auto_space <> poll_interval_ms) by (vm_compute; discriminate).
  assert (Hne2 : show_notifications <> poll_interval_ms) by (vm_compute; discriminate).
  assert (Hne3 : show_notifications <> auto_space) by (vm_compute; discriminate).
  subst cfg. repeat split.
  - now rewrite !lookup_insert_ne, lookup_insert_eq by assumption.
  - now rewrite lookup_insert_ne, lookup_insert_eq by assumption.
  - now rewrite lookup_insert_eq.
  - intros k H1 H2 H3. now rewrite !lookup_insert_ne by congruence.
Qed.

Lemma settings_ok_replaces_config_witness :
  bridge_instance (state_of (SettingsDialog_trigger
     (Decoded (JObj [(lit "theme", JStr (lit "dark"))])) confirmed_dialog SaveDone Missing
     (clip 7 "hello") sample_office))
  = Some (set_config
            (<[show_notifications := JBool false]>
               (<[auto_space := JBool true]>
                  (<[poll_interval_ms := JInt 250]>
                     (<[lit "theme" := JStr (lit "dark")]> defaults))))
            idle_bridge).
Proof.
  apply (settings_ok_replaces_config
           (Decoded (JObj [(lit "theme", JStr (lit "dark"))])) Missing confirmed_dialog
           SaveDone (clip 7 "hello") sample_office idle_bridge
           (<[lit "theme" := JStr (lit "dark")]> defaults) (501 # 2) 1%Z 0%Z);
    reflexivity.
Defined.
